(** * SmartLab gateway simulator: the JSON-RPC dispatcher and the test lifecycle

    A shallow embedding of [src/main.py].  The handler [jsonrpc_handler] of
    the program is one function from a decoded request to a response
    envelope; it reads and mutates two module globals ([config], whose
    ["tests"] entry is the very list object bound to [list_of_tests]) and
    rewrites the file [config.json] on most mutating paths.

    The embedding passes that state explicitly:
    - the in-memory [config] dictionary (with its [tests] list), and
    - the contents last written to [config.json].

    The two sources of nondeterminism of a call, [int(time.time())] and
    [random.uniform(50, 100)], are arguments of the handler.  Floating point
    values are IEEE binary64, as Python's [float]: they are Rocq's primitive
    floats.

    Dictionaries with a fixed set of keys are records (a test, a channel
    record, a data point, the parameter bag of a request seen through the
    keys the handler reads); a key read with [.get] is an [option] field
    where the program tolerates its absence.  Responses are JSON values
    with the keys in the order of the source's dictionary displays.  Tests
    are referred to by their position in [list_of_tests]: the program
    mutates the dictionary found by the lookup in place, which is an update
    of the list at that position.

    The handler runs inside [try: ... except Exception], answering -32000
    with the text of the fault.  With the keys typed as above, the
    operations left that can raise are those of the [sqrt] branch on its
    untyped argument [x] (the comparison [x < 0] and the conversion of
    [math.sqrt]) and the subscript [list_of_tests[new_test_number - 1]] of
    the clone branch; both are kept with their answers.  Faults of the file
    system are not modelled. *)

From Stdlib Require Import ZArith Floats Uint63.
From stdpp Require Import base list strings option pretty.

Set Warnings "-inexact-float,-register-all".
Open Scope Z_scope.

(** ** JSON values *)

Inductive json : Type :=
| JNull
| JBool (b : bool)
| JInt (z : Z)
| JFloat (f : float)
| JStr (s : string)
| JList (l : list json)
| JObj (o : list (string * json)).

(** [d.get(k)] on a dictionary display: the first binding of [k]. *)
Fixpoint assoc (k : string) (o : list (string * json)) : option json :=
  match o with
  | [] => None
  | (k', v) :: o' => if decide (k' = k) then Some v else assoc k o'
  end.

Definition get (k : string) (j : json) : option json :=
  match j with
  | JObj o => assoc k o
  | _ => None
  end.

(** Python truthiness, as used by [if error:]. *)
Definition truthy (j : json) : bool :=
  match j with
  | JNull => false
  | JBool b => b
  | JInt z => negb (z =? 0)
  | JFloat f => negb (PrimFloat.eqb f 0)
  | JStr s => negb (String.eqb s "")
  | JList l => match l with [] => false | _ => true end
  | JObj o => match o with [] => false | _ => true end
  end.

Definition opt_str (o : option string) : json :=
  match o with Some s => JStr s | None => JNull end.

Definition opt_int (o : option Z) : json :=
  match o with Some z => JInt z | None => JNull end.

(** [str(v)] inside an f-string, for a value read with [.get]. *)
Definition str_opt_string (o : option string) : string :=
  match o with Some s => s | None => "None" end.

Definition str_opt_int (o : option Z) : string :=
  match o with Some z => pretty z | None => "None" end.

(** ** Data model *)

Record data_point := {
  delta_t : float;
  value : float
}.

Record channel := {
  stage_name : string;
  sub_stage_index : Z;
  channel_type : string;
  channel_index : Z;
  list_of_data_points : list data_point
}.

(** What a dictionary holds under a key that is read with
    [.get(key, default)]: nothing, a JSON null, or a value.  The default is
    returned for an absent key only. *)
Inductive keyed (A : Type) : Type :=
| Absent
| Null
| Value (a : A).

Arguments Absent {A}.
Arguments Null {A}.
Arguments Value {A} a.

(** A test dictionary.  [stop_mode_id] is read with [.get] and no default,
    which gives [None] for an absent key and for a JSON null alike: the
    field is an [option].  [list_of_channel_acquired_data] is read with
    [.get(..., [])], which tells the two apart. *)
Record test := {
  test_number : Z;
  status : string;
  test_description : string;
  specimen_code : string;
  specimen_description : string;
  sample_reception_epoch_time : Z;
  customer_id : Z;
  test_status_code : string;
  stop_mode_id : option Z;
  list_of_channel_acquired_data : keyed (list channel)
}.

Record license := { code : option string }.

(** The document of [config.json]. *)
Record Config := {
  api_key : option string;
  deviceId : option string;
  deviceName : option string;
  test_duration_seconds : Z;
  list_of_licenses : list license;
  tests : list test
}.

(** The program state: the global [config] (whose [tests] is the list
    [list_of_tests]) and what [config.json] holds. *)
Record state := {
  config : Config;
  config_json : Config
}.

Definition list_of_tests (s : state) : list test := tests (config s).

(** [API_KEY = config.get("api_key", "CHANGE-ME-SOON")], bound once at
    start-up; no call changes [config["api_key"]]
    (see [jsonrpc_handler_keeps_settings]). *)
Definition API_KEY (s : state) : string :=
  default "CHANGE-ME-SOON" (api_key (config s)).

(** ** Requests and responses *)

Inductive rpc_id := IdInt (n : Z) | IdStr (s : string).

(** The parameter bag, through the keys the handler reads. *)
Record Params := {
  p_api_key : option string;
  p_device_id : option string;
  p_test_number : option Z;
  p_x : option json;
  p_test_description : option string;
  p_specimen_code : option string;
  p_specimen_description : option string;
  p_customer_id : option Z
}.

Definition no_params : Params :=
  {| p_api_key := None; p_device_id := None; p_test_number := None;
     p_x := None; p_test_description := None; p_specimen_code := None;
     p_specimen_description := None; p_customer_id := None |}.

Record JsonRpcRequest := {
  jsonrpc : string;
  method : string;
  id : rpc_id;
  params : option Params
}.

Inductive response :=
| Result (i : rpc_id) (result : json)
| Error (i : rpc_id) (error : json).

Definition jsonrpc_response (i : rpc_id) (result : json) (error : option json)
  : response :=
  match error with
  | Some e => if truthy e then Error i e else Result i result
  | None => Result i result
  end.

Definition err (c : Z) (k msg : string) : option json :=
  Some (JObj [("code", JInt c); (k, JStr msg)]).

(** ** In-place updates of a test *)

Definition with_status_code (c : string) (t : test) : test :=
  {| test_number := test_number t; status := status t;
     test_description := test_description t;
     specimen_code := specimen_code t;
     specimen_description := specimen_description t;
     sample_reception_epoch_time := sample_reception_epoch_time t;
     customer_id := customer_id t;
     test_status_code := c;
     stop_mode_id := stop_mode_id t;
     list_of_channel_acquired_data := list_of_channel_acquired_data t |}.

Definition with_stop_mode_id (m : Z) (t : test) : test :=
  {| test_number := test_number t; status := status t;
     test_description := test_description t;
     specimen_code := specimen_code t;
     specimen_description := specimen_description t;
     sample_reception_epoch_time := sample_reception_epoch_time t;
     customer_id := customer_id t;
     test_status_code := test_status_code t;
     stop_mode_id := Some m;
     list_of_channel_acquired_data := list_of_channel_acquired_data t |}.

Definition with_reception_time (e : Z) (t : test) : test :=
  {| test_number := test_number t; status := status t;
     test_description := test_description t;
     specimen_code := specimen_code t;
     specimen_description := specimen_description t;
     sample_reception_epoch_time := e;
     customer_id := customer_id t;
     test_status_code := test_status_code t;
     stop_mode_id := stop_mode_id t;
     list_of_channel_acquired_data := list_of_channel_acquired_data t |}.

Definition with_tests (l : list test) (c : Config) : Config :=
  {| api_key := api_key c; deviceId := deviceId c; deviceName := deviceName c;
     test_duration_seconds := test_duration_seconds c;
     list_of_licenses := list_of_licenses c; tests := l |}.

(** The list [list_of_tests] after an in-place change. *)
Definition set_tests (l : list test) (s : state) : state :=
  {| config := with_tests l (config s); config_json := config_json s |}.

(** [with open("config.json", "w") as f: config["tests"] = list_of_tests;
    json.dump(config, f, indent=2)] *)
Definition save (s : state) : state :=
  {| config := config s; config_json := config s |}.

(** [next((t for t in list_of_tests if t["test_number"] == test_number), None)],
    with the position of the dictionary found. *)
Definition find_test (n : option Z) (l : list test) : option (nat * test) :=
  list_find (λ t, Some (test_number t) = n) l.

(** The auto-completion of the two read paths:
    [if test["test_status_code"] == "RUN" and
        int(time.time()) - test["sample_reception_epoch_time"]
          >= config.get("test_duration_seconds"): ...] *)
Definition auto_complete (now duration : Z) (t : test) : test :=
  if decide (test_status_code t = "RUN") then
    if decide (now - sample_reception_epoch_time t >= duration)
    then with_stop_mode_id 2 (with_status_code "END" t)
    else t
  else t.

(** ** The synthetic waveform of a cloned test *)

(** [range(start, stop, step)] for a positive [step]. *)
Definition range (start stop step : Z) : list Z :=
  (λ k : nat, start + Z.of_nat k * step) <$>
    seq 0 (Z.to_nat ((stop - start + step - 1) / step)).

(** [float(z)] of an integer, as [math.sqrt] converts its argument: the
    nearest binary64 value, ties to even; an [OverflowError] ([None]) when
    that is beyond the largest finite one. *)
Definition float_of_int (z : Z) : option float :=
  let x := SF2Prim (binary_normalize FloatOps.prec FloatOps.emax z 0 false) in
  if is_infinity x then None else Some x.

(** [float(x)] of a small non-negative integer. *)
Definition float_of_Z (x : Z) : float := PrimFloat.of_uint63 (Uint63.of_Z x).

(** The body of the loop:
    [x = x/100; y = x if x < maxNewton else -x + (maxNewton * 2);
     results_data.append({"delta_t": x, "value": y})] *)
Definition sample (maxNewton : float) (x : Z) : data_point :=
  let x := (float_of_Z x / 100)%float in
  let y := if (x <? maxNewton)%float then x else (- x + maxNewton * 2)%float in
  {| delta_t := x; value := y |}.

(** [results_data = []; for x in range(0, 100_00, 5): ...] *)
Definition results_data (maxNewton : float) : list data_point :=
  fold_left (λ acc x, acc ++ [sample maxNewton x]) (range 0 10000 5) [].

(** The dictionary [new_test] of the clone branch. *)
Definition new_test (now : Z) (maxNewton : float) (new_test_number : Z)
    (params : Params) : test :=
  {| test_number := new_test_number;
     status := "OK";
     test_description := default "Cloned Test" (p_test_description params);
     specimen_code := default "001" (p_specimen_code params);
     specimen_description :=
       default "Cloned Specimen" (p_specimen_description params);
     sample_reception_epoch_time := now;
     customer_id := default 1 (p_customer_id params);
     test_status_code := "RUN";
     stop_mode_id := None;
     list_of_channel_acquired_data :=
       Value [ {| stage_name := "COMPRESSION_STAGE";
                 sub_stage_index := 1;
                 channel_type := "Analog";
                 channel_index := 1;
                 list_of_data_points := results_data maxNewton |} ] |}.

(** ** JSON views of the stored data *)

Definition data_point_json (d : data_point) : json :=
  JObj [("delta_t", JFloat (delta_t d)); ("value", JFloat (value d))].

Definition channel_json (c : channel) : json :=
  JObj [("stage_name", JStr (stage_name c));
        ("sub_stage_index", JInt (sub_stage_index c));
        ("channel_type", JStr (channel_type c));
        ("channel_index", JInt (channel_index c));
        ("list_of_data_points",
         JList (data_point_json <$> list_of_data_points c))].

Definition channels_json (l : list channel) : json :=
  JList (channel_json <$> l).

(** ** The dispatcher *)

Definition device_not_found (i : rpc_id) (params : Params) : response :=
  jsonrpc_response i JNull
    (err (-1) "message"
       ("Device ID " +:+ str_opt_string (p_device_id params) +:+ " not found")).

Definition test_not_found (i : rpc_id) (n : option Z) : response :=
  jsonrpc_response i JNull
    (err (-1) "message" ("Test number " +:+ str_opt_int n +:+ " not found")).

Definition ok : string * json := ("status", JStr "OK").

Section Handler.

(** [int(time.time())] and [random.uniform(50, 100)] of this call. *)
Variable now : Z.
Variable maxNewton : float.

Variable i : rpc_id.
Variable params : Params.

(** [x is None or x < 0], then [math.sqrt(x)], for [x] any JSON value.
    The comparison raises a [TypeError] on a string, a list or an object;
    [math.sqrt] converts an integer to binary64 and raises an
    [OverflowError] when it is too large.  The fault is answered by the
    enclosing [except] with code -32000 and [str(e)]. *)
Definition sqrt (s : state) : response * state :=
  let domain_error :=
    jsonrpc_response i JNull
      (err (-1) "message"
         "Error in doSqrt: sqrt is only applicable to non-negative values") in
  let fault (msg : string) :=
    jsonrpc_response i JNull (err (-32000) "message" msg) in
  let root (x : float) :=
    jsonrpc_response i (JObj [ok; ("y", JFloat (PrimFloat.sqrt x))]) None in
  match p_x params with
  | None | Some JNull => (domain_error, s)
  | Some (JBool b) => (root (if b then 1 else 0)%float, s)
  | Some (JInt z) =>
      if z <? 0 then (domain_error, s)
      else match float_of_int z with
           | Some x => (root x, s)
           | None => (fault "int too large to convert to float", s)
           end
  | Some (JFloat x) =>
      if (x <? 0)%float then (domain_error, s) else (root x, s)
  | Some (JStr _) =>
      (fault "'<' not supported between instances of 'str' and 'int'", s)
  | Some (JList _) =>
      (fault "'<' not supported between instances of 'list' and 'int'", s)
  | Some (JObj _) =>
      (fault "'<' not supported between instances of 'dict' and 'int'", s)
  end.

Definition getListOfAllMachines (s : state) : response * state :=
  (jsonrpc_response i
     (JObj [ok;
            ("list_of_all_device_ids",
             JList [opt_str (deviceId (config s));
                    JStr "756200G-0E-0028000C";
                    JStr "28XYPP-05-00470034"])]) None,
   s).

Definition getMachineIdentity (s : state) : response * state :=
  if decide (p_device_id params ≠ deviceId (config s)) then
    (device_not_found i params, s)
  else
    (jsonrpc_response i
       (JObj [ok;
              ("machine_name", opt_str (deviceName (config s)));
              ("machine_type_id", JInt 256);
              ("list_of_license_codes",
               JList ((λ l, opt_str (code l)) <$>
                        list_of_licenses (config s)))]) None,
     s).

Definition getMachineStatus (s : state) : response * state :=
  if decide (p_device_id params ≠ deviceId (config s)) then
    (device_not_found i params, s)
  else
    (jsonrpc_response i (JObj [ok; ("machine_status_id", JInt 2)]) None, s).

Definition getListOfAllTests (s : state) : response * state :=
  if decide (p_device_id params ≠ deviceId (config s)) then
    (device_not_found i params, s)
  else
    (jsonrpc_response i
       (JObj [ok;
              ("list_of_all_test_numbers",
               JList ((λ t, JInt (test_number t)) <$> list_of_tests s))])
       None,
     s).

Definition getListOfAllTestsBySpecimenCode (s : state) : response * state :=
  if decide (p_device_id params ≠ deviceId (config s)) then
    (device_not_found i params, s)
  else
    let specimen_code' := p_specimen_code params in
    let matching_tests :=
      filter (λ t, Some (specimen_code t) = specimen_code') (list_of_tests s) in
    match matching_tests with
    | [] =>
        (jsonrpc_response i JNull
           (err (-1) "message"
              ("No tests found for specimen code " +:+
               str_opt_string specimen_code')),
         s)
    | _ =>
        (jsonrpc_response i
           (JObj [ok; ("message", JStr "Method not implemented yet")]) None,
         s)
    end.

Definition getTestInfoAndStatus (s : state) : response * state :=
  if decide (p_device_id params ≠ deviceId (config s)) then
    (device_not_found i params, s)
  else
    match find_test (p_test_number params) (list_of_tests s) with
    | None => (test_not_found i (p_test_number params), s)
    | Some (k, t) =>
        let t := auto_complete now (test_duration_seconds (config s)) t in
        let s := save (set_tests (<[k := t]> (list_of_tests s)) s) in
        (jsonrpc_response i
           (JObj [ok;
                  ("test_description", JStr (test_description t));
                  ("specimen_code", JStr (specimen_code t));
                  ("specimen_description", JStr (specimen_description t));
                  ("sample_reception_epoch_time",
                   JInt (sample_reception_epoch_time t));
                  ("customer_id", JInt (customer_id t));
                  ("test_status_code", JStr (test_status_code t))]) None,
         s)
    end.

Definition getCustomer (s : state) : response * state :=
  (jsonrpc_response i
     (JObj [ok; ("description", JStr "PNN Scavi SRL");
            ("address", JStr "123 Test Street");
            ("phone1", JStr "000111222"); ("phone2", JNull);
            ("email", JStr "test@example.com");
            ("contact1", JStr "John Doe"); ("contact2", JNull);
            ("annotation", JNull)]) None,
   s).

Definition getListOfAllCustomers (s : state) : response * state :=
  (jsonrpc_response i
     (JObj [ok;
            ("list_of_all_customers", JList [JInt 1; JInt 2; JInt 3; JInt 4])])
     None,
   s).

Definition getTestAcquisitionSettings (s : state) : response * state :=
  if decide (p_device_id params ≠ deviceId (config s)) then
    (device_not_found i params, s)
  else
    match find_test (p_test_number params) (list_of_tests s) with
    | None => (test_not_found i (p_test_number params), s)
    | Some _ =>
        (jsonrpc_response i
           (JObj [ok; ("profile_id", JInt 1);
                  ("list_of_stages", JStr "Not implemented yet")]) None,
         s)
    end.

Definition getTestAcquiredDataAndResults (s : state) : response * state :=
  match find_test (p_test_number params) (list_of_tests s) with
  | None => (test_not_found i (p_test_number params), s)
  | Some (k, t) =>
      let t := auto_complete now (test_duration_seconds (config s)) t in
      let s := save (set_tests (<[k := t]> (list_of_tests s)) s) in
      (jsonrpc_response i
         (JObj [ok;
                ("list_of_channel_acquired_data",
                 match list_of_channel_acquired_data t with
                 | Absent => JList []
                 | Null => JNull
                 | Value l => channels_json l
                 end);
                ("stop_mode_id", opt_int (stop_mode_id t))]) None,
       s)
  end.

Definition cloneAndStartTest (s : state) : response * state :=
  if decide (p_device_id params ≠ deviceId (config s)) then
    (device_not_found i params, s)
  else
    match find_test (p_test_number params) (list_of_tests s) with
    | None => (test_not_found i (p_test_number params), s)
    | Some _ =>
        let new_test_number := length (list_of_tests s) in
        match list_of_tests s !! (new_test_number - 1)%nat with
        | None =>
            (* [except Exception as e]: an IndexError of the subscript *)
            (jsonrpc_response i JNull
               (err (-32000) "message" "list index out of range"),
             s)
        | Some last =>
            if decide (test_status_code last = "RUN") then
              (jsonrpc_response i JNull
                 (err (-1) "message" "Cannot clone a running test"),
               s)
            else
              let t := new_test now maxNewton (Z.of_nat new_test_number) params in
              let s := save (set_tests (list_of_tests s ++ [t]) s) in
              (jsonrpc_response i
                 (JObj [ok;
                        ("new_test_number", JInt (Z.of_nat new_test_number))])
                 None,
               s)
        end
    end.

Definition continueTest (s : state) : response * state :=
  if decide (p_device_id params ≠ deviceId (config s)) then
    (device_not_found i params, s)
  else
    match find_test (p_test_number params) (list_of_tests s) with
    | None => (test_not_found i (p_test_number params), s)
    | Some (k, t) =>
        if decide (test_status_code t ≠ "PAUSE") then
          (jsonrpc_response i JNull (err (-1) "status" "TEST NOT IN PAUSE"), s)
        else
          let t := with_reception_time now (with_status_code "RUN" t) in
          let s := save (set_tests (<[k := t]> (list_of_tests s)) s) in
          (jsonrpc_response i (JObj [ok]) None, s)
    end.

Definition stopTest (s : state) : response * state :=
  if decide (p_device_id params ≠ deviceId (config s)) then
    (device_not_found i params, s)
  else
    match find_test (p_test_number params) (list_of_tests s) with
    | None => (test_not_found i (p_test_number params), s)
    | Some (k, t) =>
        if decide (test_status_code t ≠ "RUN") then
          (jsonrpc_response i JNull
             (err (-1) "message"
                ("Test number " +:+ str_opt_int (p_test_number params) +:+
                 " is not running")),
           s)
        else if decide (now - sample_reception_epoch_time t
                          >= test_duration_seconds (config s)) then
          let t := with_stop_mode_id 2 (with_status_code "END" t) in
          let s := set_tests (<[k := t]> (list_of_tests s)) s in
          (jsonrpc_response i JNull (err (-1) "status" "TEST NOT STOPPABLE"), s)
        else
          let t := with_status_code "PAUSE" t in
          let s := save (set_tests (<[k := t]> (list_of_tests s)) s) in
          (jsonrpc_response i (JObj [ok]) None, s)
    end.

End Handler.

(** [params = req.params or {}] *)
Definition params_of (req : JsonRpcRequest) : Params :=
  default no_params (params req).

(** [@app.post("/jsonrpc") async def jsonrpc_handler(req)]: one call, at
    time [now] and with [maxNewton] the draw of [random.uniform(50, 100)]
    (read by the clone branch only). *)
Definition jsonrpc_handler (now : Z) (maxNewton : float)
    (req : JsonRpcRequest) (s : state) : response * state :=
  let method := method req in
  let params := params_of req in
  let i := id req in
  if decide (method = "getRevision") then
    (jsonrpc_response i (JStr "0.3") None, s)
  else if decide (method = "sqrt") then
    sqrt i params s
  else if decide (p_api_key params ≠ Some (API_KEY s)) then
    (jsonrpc_response i JNull (err (-401) "message" "Invalid API key"), s)
  else if decide (method = "getListOfAllMachines") then
    getListOfAllMachines i s
  else if decide (method = "getMachineIdentity") then
    getMachineIdentity i params s
  else if decide (method = "getMachineStatus") then
    getMachineStatus i params s
  else if decide (method = "getListOfAllTests") then
    getListOfAllTests i params s
  else if decide (method = "getListOfAllTestsBySpecimenCode") then
    getListOfAllTestsBySpecimenCode i params s
  else if decide (method = "getTestInfoAndStatus") then
    getTestInfoAndStatus now i params s
  else if decide (method = "getCustomer") then
    getCustomer i s
  else if decide (method = "getListOfAllCustomers") then
    getListOfAllCustomers i s
  else if decide (method = "getTestAcquisitionSettings") then
    getTestAcquisitionSettings i params s
  else if decide (method = "getTestAcquiredDataAndResults") then
    getTestAcquiredDataAndResults now i params s
  else if decide (method = "cloneAndStartTest") then
    cloneAndStartTest now maxNewton i params s
  else if decide (method = "continueTest") then
    continueTest now i params s
  else if decide (method = "stopTest") then
    stopTest now i params s
  else
    (jsonrpc_response i JNull
       (err (-32601) "message" ("Method " +:+ method +:+ " not implemented")),
     s).

(** A sequence of calls, each with its clock reading and its random draw. *)
Definition call : Type := Z * float * JsonRpcRequest.

Definition step (s : state) (c : call) : state :=
  let '(now, maxNewton, req) := c in
  snd (jsonrpc_handler now maxNewton req s).

Definition run (cs : list call) (s : state) : state := fold_left step cs s.

(** ** Observations on responses *)

Definition is_error (r : response) : bool :=
  match r with Error _ _ => true | Result _ _ => false end.

Definition error_code (r : response) : option json :=
  match r with Error _ e => get "code" e | Result _ _ => None end.

Definition result_field (k : string) (r : response) : option json :=
  match r with Result _ j => get k j | Error _ _ => None end.

(** ** A sample installation: the catalog of [tests/Compression_test.py] *)

Definition T0 : test :=
  {| test_number := 0; status := "OK"; test_description := "T0";
     specimen_code := "001"; specimen_description := "Spec0";
     sample_reception_epoch_time := 1000000000; customer_id := 1;
     test_status_code := "END"; stop_mode_id := Some 2;
     list_of_channel_acquired_data := Value [] |}.

Definition T1 : test :=
  {| test_number := 1; status := "OK"; test_description := "T1";
     specimen_code := "002"; specimen_description := "Spec1";
     sample_reception_epoch_time := 1000000000; customer_id := 1;
     test_status_code := "PAUSE"; stop_mode_id := None;
     list_of_channel_acquired_data := Value [] |}.

Definition cfg0 : Config :=
  {| api_key := Some "TESTKEY"; deviceId := Some "DEV-1";
     deviceName := Some "SimMachine"; test_duration_seconds := 60;
     list_of_licenses := [ {| code := Some "LIC-AAA" |};
                           {| code := Some "LIC-BBB" |} ];
     tests := [T0; T1] |}.

(** The state right after start-up: memory holds what the file holds. *)
Definition loaded (c : Config) : state := {| config := c; config_json := c |}.

Definition s0 : state := loaded cfg0.

Definition rpc (m : string) (p : Params) (n : Z) : JsonRpcRequest :=
  {| jsonrpc := "2.0"; method := m; id := IdInt n; params := Some p |}.

(** [{"api_key": ..., "device_id": ..., "test_number": n}] *)
Definition on_test (n : Z) : Params :=
  {| p_api_key := Some "TESTKEY"; p_device_id := Some "DEV-1";
     p_test_number := Some n; p_x := None; p_test_description := None;
     p_specimen_code := None; p_specimen_description := None;
     p_customer_id := None |}.

Definition wrong_key (n : Z) : Params :=
  {| p_api_key := Some "WRONG"; p_device_id := Some "DEV-1";
     p_test_number := Some n; p_x := None; p_test_description := None;
     p_specimen_code := None; p_specimen_description := None;
     p_customer_id := None |}.

(** A test in RUN, with one channel of acquired data, as the suite of
    [tests/Compression_test.py] sets it up. *)
Definition T1_run (e : Z) : test :=
  {| test_number := 1; status := "OK"; test_description := "T1";
     specimen_code := "002"; specimen_description := "Spec1";
     sample_reception_epoch_time := e; customer_id := 1;
     test_status_code := "RUN"; stop_mode_id := None;
     list_of_channel_acquired_data :=
       Value [ {| stage_name := "S"; sub_stage_index := 1;
                 channel_type := "Analog"; channel_index := 1;
                 list_of_data_points := [] |} ] |}.

Definition s_run (e : Z) : state := loaded (with_tests [T0; T1_run e] cfg0).

(** The same test with a JSON null under [list_of_channel_acquired_data]. *)
Definition T1_null (e : Z) : test :=
  {| test_number := 1; status := "OK"; test_description := "T1";
     specimen_code := "002"; specimen_description := "Spec1";
     sample_reception_epoch_time := e; customer_id := 1;
     test_status_code := "RUN"; stop_mode_id := None;
     list_of_channel_acquired_data := Null |}.

Definition s_null (e : Z) : state := loaded (with_tests [T0; T1_null e] cfg0).

(** The parameters of the suite's call: no [device_id]. *)
Definition no_device (n : Z) : Params :=
  {| p_api_key := Some "TESTKEY"; p_device_id := None;
     p_test_number := Some n; p_x := None; p_test_description := None;
     p_specimen_code := None; p_specimen_description := None;
     p_customer_id := None |}.

(** The calls of the suite, and two more. *)
Definition stop_1 : JsonRpcRequest := rpc "stopTest" (on_test 1) 50.
Definition stop_1_wrong_key : JsonRpcRequest := rpc "stopTest" (wrong_key 1) 10.
Definition continue_0 : JsonRpcRequest := rpc "continueTest" (on_test 0) 41.
Definition continue_1 : JsonRpcRequest := rpc "continueTest" (on_test 1) 40.
Definition clone_0 : JsonRpcRequest := rpc "cloneAndStartTest" (on_test 0) 30.
Definition clone_7 : JsonRpcRequest := rpc "cloneAndStartTest" (on_test 7) 31.
Definition info_1 : JsonRpcRequest := rpc "getTestInfoAndStatus" (on_test 1) 20.
Definition data_1 : JsonRpcRequest :=
  rpc "getTestAcquiredDataAndResults" (no_device 1) 21.

(** A session on the sample catalog: calls on the ended test 0, a clone,
    and calls on the clone. *)
Definition session : list call :=
  [ (1000010000, 75%float, continue_0);
    (1000010000, 75%float, rpc "stopTest" (on_test 0) 2);
    (1000010000, 75%float, rpc "getTestInfoAndStatus" (on_test 0) 3);
    (1000010000, 75%float, rpc "getTestAcquiredDataAndResults" (on_test 0) 4);
    (1000010000, 75%float, clone_0);
    (1000010000, 75%float, rpc "stopTest" (on_test 2) 6);
    (1000010000, 75%float, rpc "continueTest" (on_test 2) 7) ].

(** ** What one call can do to the state *)

(** The four shapes of the state after a call: untouched; one stored test
    replaced in place and the file rewritten; one test appended and the
    file rewritten; or, on the duration-exceeded branch of [stopTest] only,
    one test replaced in place and the file left as it was. *)
Inductive effect (r : response) (req : JsonRpcRequest) (s s' : state) : Prop :=
| Untouched :
    s' = s → effect r req s s'
| Replaced k t t' :
    list_of_tests s !! k = Some t →
    t' = t ∨ test_status_code t ≠ "END" →
    s' = save (set_tests (<[k := t']> (list_of_tests s)) s) →
    effect r req s s'
| Appended t :
    s' = save (set_tests (list_of_tests s ++ [t]) s) →
    effect r req s s'
| EndedUnsaved k t :
    method req = "stopTest" →
    r = Error (id req)
          (JObj [("code", JInt (-1)); ("status", JStr "TEST NOT STOPPABLE")]) →
    list_of_tests s !! k = Some t →
    test_status_code t = "RUN" →
    s' = set_tests
           (<[k := with_stop_mode_id 2 (with_status_code "END" t)]>
              (list_of_tests s)) s →
    effect r req s s'.

(** ** The helper [check_api_key]

    [def check_api_key(params, req_id)]: defined by the program beside the
    handler, which does not call it (the handler has its own comparison,
    answered with -401). *)
Definition check_api_key (params : Params) (req_id : rpc_id) (s : state)
  : option response :=
  if decide (p_api_key params ≠ Some (API_KEY s)) then
    Some (jsonrpc_response req_id JNull
            (Some (JObj [("code", JInt (-1));
                         ("message", JStr "Wrong api_key");
                         ("data",
                          JObj [("class", JStr "Error");
                                ("jsonAdapterVersion", JStr "0.1");
                                ("cadmoVersion", JStr "Cadmo v3.2123");
                                ("stacks", JStr "")])])))
  else None.

(** ** The faults of the [sqrt] branch *)

(** The arguments [x] on which the [sqrt] branch raises: a string, a list
    or an object (at [x < 0]), and an integer that is not negative and too
    large for binary64 (in [math.sqrt]). *)
Definition sqrt_raises (x : option json) : bool :=
  match x with
  | Some (JStr _) | Some (JList _) | Some (JObj _) => true
  | Some (JInt z) =>
      if z <? 0 then false
      else match float_of_int z with Some _ => false | None => true end
  | _ => false
  end.

(** ** The method names of the dispatcher *)

(** The names the chain of [if]/[elif] compares [method] with. *)
Definition known_methods : list string :=
  ["getRevision"; "sqrt"; "getListOfAllMachines"; "getMachineIdentity";
   "getMachineStatus"; "getListOfAllTests"; "getListOfAllTestsBySpecimenCode";
   "getTestInfoAndStatus"; "getCustomer"; "getListOfAllCustomers";
   "getTestAcquisitionSettings"; "getTestAcquiredDataAndResults";
   "cloneAndStartTest"; "continueTest"; "stopTest"].

(** The branches that open with the comparison of [device_id]. *)
Definition device_scoped : list string :=
  ["getMachineIdentity"; "getMachineStatus"; "getListOfAllTests";
   "getListOfAllTestsBySpecimenCode"; "getTestInfoAndStatus";
   "getTestAcquisitionSettings"; "cloneAndStartTest"; "continueTest";
   "stopTest"].

(** The branches that look a stored test up and assign to it. *)
Definition updating : list string :=
  ["getTestInfoAndStatus"; "getTestAcquiredDataAndResults"; "continueTest";
   "stopTest"].

(** The branches that look a stored test up, the clone branch apart. *)
Definition addressing : list string :=
  ["getTestInfoAndStatus"; "getTestAcquisitionSettings";
   "getTestAcquiredDataAndResults"; "continueTest"; "stopTest"].

(** ** The lifecycle of a stored test *)

(** The assignments the branches make to a stored test, at clock reading
    [now] and with the configured duration [d]: none; the two of the
    duration rule; the one of a stop in time; the two of a continue. *)
Inductive moves (now d : Z) : test → test → Prop :=
| Stays t :
    moves now d t t
| Ends t :
    test_status_code t = "RUN" →
    now - sample_reception_epoch_time t >= d →
    moves now d t (with_stop_mode_id 2 (with_status_code "END" t))
| Pauses t :
    test_status_code t = "RUN" →
    now - sample_reception_epoch_time t < d →
    moves now d t (with_status_code "PAUSE" t)
| Resumes t :
    test_status_code t = "PAUSE" →
    moves now d t (with_reception_time now (with_status_code "RUN" t)).

(** The keys of a test that no branch assigns to. *)
Definition same_record (t t' : test) : Prop :=
  test_number t' = test_number t ∧
  status t' = status t ∧
  test_description t' = test_description t ∧
  specimen_code t' = specimen_code t ∧
  specimen_description t' = specimen_description t ∧
  customer_id t' = customer_id t ∧
  list_of_channel_acquired_data t' = list_of_channel_acquired_data t.

(** Test numbers are the positions in the registry. *)
Definition dense (l : list test) : Prop :=
  ∀ k t, l !! k = Some t → test_number t = Z.of_nat k.

Definition lifecycle_status (c : string) : Prop :=
  c = "RUN" ∨ c = "PAUSE" ∨ c = "END".

Definition response_id (r : response) : rpc_id :=
  match r with Result i _ => i | Error i _ => i end.

(** ** More sample data *)

Definition s_empty : state := loaded (with_tests [] cfg0).

(** A catalog in which the number 1 is carried twice. *)
Definition T1_again : test :=
  {| test_number := 1; status := "OK"; test_description := "T1 again";
     specimen_code := "003"; specimen_description := "Spec2";
     sample_reception_epoch_time := 1000000000; customer_id := 2;
     test_status_code := "PAUSE"; stop_mode_id := None;
     list_of_channel_acquired_data := Absent |}.

Definition s_twice : state := loaded (with_tests [T0; T1; T1_again] cfg0).

(** [{"api_key": ..., "device_id": "NOPE", "test_number": n}] *)
Definition wrong_device (n : Z) : Params :=
  {| p_api_key := Some "TESTKEY"; p_device_id := Some "NOPE";
     p_test_number := Some n; p_x := None; p_test_description := None;
     p_specimen_code := None; p_specimen_description := None;
     p_customer_id := None |}.

(** [{"api_key": ..., "device_id": ...}]: no [test_number]. *)
Definition no_number : Params :=
  {| p_api_key := Some "TESTKEY"; p_device_id := Some "DEV-1";
     p_test_number := None; p_x := None; p_test_description := None;
     p_specimen_code := None; p_specimen_description := None;
     p_customer_id := None |}.

(** The parameters of the suite's clone. *)
Definition clone_params (n : Z) : Params :=
  {| p_api_key := Some "TESTKEY"; p_device_id := Some "DEV-1";
     p_test_number := Some n; p_x := None;
     p_test_description := Some "Clone"; p_specimen_code := Some "999";
     p_specimen_description := Some "Cloned"; p_customer_id := Some 5 |}.

(** [{"x": x}]: no [api_key]. *)
Definition with_x (x : json) : Params :=
  {| p_api_key := None; p_device_id := None; p_test_number := None;
     p_x := Some x; p_test_description := None; p_specimen_code := None;
     p_specimen_description := None; p_customer_id := None |}.

Definition with_specimen (c : option string) : Params :=
  {| p_api_key := Some "TESTKEY"; p_device_id := Some "DEV-1";
     p_test_number := None; p_x := None; p_test_description := None;
     p_specimen_code := c; p_specimen_description := None;
     p_customer_id := None |}.

(** More calls. *)
Definition sqrt_9 : JsonRpcRequest := rpc "sqrt" (with_x (JInt 9)) 2.
Definition sqrt_abc : JsonRpcRequest := rpc "sqrt" (with_x (JStr "abc")) 3.
Definition sqrt_huge : JsonRpcRequest := rpc "sqrt" (with_x (JInt (10 ^ 400))) 4.

(** Calls on the number 1, which two tests of [s_twice] carry. *)
Definition session_on_1 : list call :=
  [ (1000000010, 75%float, continue_1);
    (1000000020, 75%float, stop_1);
    (1000000030, 75%float, continue_1);
    (1000010000, 75%float, info_1);
    (1000010000, 75%float, data_1) ].

Definition stop_1_wrong_device : JsonRpcRequest :=
  rpc "stopTest" (wrong_device 1) 13.

Definition delete_test_1 : JsonRpcRequest := rpc "deleteTest" (on_test 1) 99.

Definition continue_no_number : JsonRpcRequest :=
  rpc "continueTest" no_number 42.

Definition clone_1 : JsonRpcRequest := rpc "cloneAndStartTest" (on_test 1) 30.

Definition clone_suite : JsonRpcRequest :=
  rpc "cloneAndStartTest" (clone_params 0) 30.
Definition info_2 : JsonRpcRequest := rpc "getTestInfoAndStatus" (on_test 2) 22.

Definition list_all : JsonRpcRequest := rpc "getListOfAllTests" (on_test 0) 14.

(** The state after the refused stop of the running test: memory holds
    END, the file still RUN. *)
Definition s_unsaved : state :=
  snd (jsonrpc_handler 5000010000 75 stop_1 (s_run 5000000000)).

Definition by_code_001 : JsonRpcRequest :=
  rpc "getListOfAllTestsBySpecimenCode" (with_specimen (Some "001")) 15.
Definition by_code_none : JsonRpcRequest :=
  rpc "getListOfAllTestsBySpecimenCode" (with_specimen None) 16.

(** ** Lookup and in-place update *)

Lemma find_test_Some n l k t :
  find_test n l = Some (k, t) → l !! k = Some t ∧ Some (test_number t) = n.
Proof.
  unfold find_test. intros H. apply list_find_Some in H. tauto.
Qed.

Lemma find_test_None n l :
  find_test n l = None → ∀ t, t ∈ l → Some (test_number t) ≠ n.
Proof.
  unfold find_test. intros H t Ht.
  apply list_find_None in H. rewrite Forall_forall in H. by apply H.
Qed.

(** The lookup finds the same position after an in-place change that keeps
    the test's number. *)
Lemma find_test_insert n l k t t' :
  find_test n l = Some (k, t) →
  test_number t' = test_number t →
  find_test n (<[k := t']> l) = Some (k, t').
Proof.
  unfold find_test. intros H Hn.
  apply list_find_Some in H as (Hk & HP & Hfirst).
  apply list_find_Some. split_and!.
  - apply list_lookup_insert_eq. by eapply lookup_lt_Some.
  - by rewrite Hn.
  - intros j y Hj Hlt. rewrite list_lookup_insert_ne in Hj by lia. eauto.
Qed.

Lemma insert_changes (l : list test) k t t' :
  l !! k = Some t → t' ≠ t → <[k := t']> l ≠ l.
Proof.
  intros Hk Hne Heq.
  assert (<[k := t']> l !! k = Some t') as H.
  { apply list_lookup_insert_eq. by eapply lookup_lt_Some. }
  rewrite Heq, Hk in H. congruence.
Qed.

Lemma last_index (l : list test) : l !! (length l - 1)%nat = last l.
Proof. rewrite last_lookup. f_equal. lia. Qed.

(** ** The auto-completion rule *)

Lemma auto_complete_elapsed now d t :
  test_status_code t = "RUN" →
  now - sample_reception_epoch_time t >= d →
  auto_complete now d t = with_stop_mode_id 2 (with_status_code "END" t).
Proof.
  intros Hrun Hel. unfold auto_complete.
  rewrite decide_True by done. by rewrite decide_True.
Qed.

Lemma auto_complete_not_running now d t :
  test_status_code t ≠ "RUN" → auto_complete now d t = t.
Proof. intros H. unfold auto_complete. by rewrite decide_False. Qed.

Lemma auto_complete_cases now d t :
  auto_complete now d t = t ∨
  (test_status_code t = "RUN" ∧
   auto_complete now d t = with_stop_mode_id 2 (with_status_code "END" t)).
Proof. unfold auto_complete. repeat case_decide; auto. Qed.

Lemma auto_complete_test_number now d t :
  test_number (auto_complete now d t) = test_number t.
Proof. by destruct (auto_complete_cases now d t) as [-> | [_ ->]]. Qed.

(** ** The guards of the dispatcher *)

Section Dispatch.

Variables (now : Z) (maxNewton : float) (req : JsonRpcRequest) (s : state).

Hypothesis authorised : p_api_key (params_of req) = Some (API_KEY s).

Ltac pick H :=
  unfold jsonrpc_handler; rewrite H;
  repeat (rewrite decide_False by done);
  rewrite decide_False by (by intros ?);
  repeat (rewrite decide_False by done);
  by rewrite decide_True.

Lemma dispatch_getTestInfoAndStatus :
  method req = "getTestInfoAndStatus" →
  jsonrpc_handler now maxNewton req s
  = getTestInfoAndStatus now (id req) (params_of req) s.
Proof using authorised. intros H. pick H. Qed.

Lemma dispatch_getTestAcquiredDataAndResults :
  method req = "getTestAcquiredDataAndResults" →
  jsonrpc_handler now maxNewton req s
  = getTestAcquiredDataAndResults now (id req) (params_of req) s.
Proof using authorised. intros H. pick H. Qed.

Lemma dispatch_cloneAndStartTest :
  method req = "cloneAndStartTest" →
  jsonrpc_handler now maxNewton req s
  = cloneAndStartTest now maxNewton (id req) (params_of req) s.
Proof using authorised. intros H. pick H. Qed.

Lemma dispatch_continueTest :
  method req = "continueTest" →
  jsonrpc_handler now maxNewton req s
  = continueTest now (id req) (params_of req) s.
Proof using authorised. intros H. pick H. Qed.

Lemma dispatch_stopTest :
  method req = "stopTest" →
  jsonrpc_handler now maxNewton req s
  = stopTest now (id req) (params_of req) s.
Proof using authorised. intros H. pick H. Qed.

End Dispatch.

(** ** The shared-secret guard *)

Lemma dispatch_unauthorised now maxNewton req s :
  method req ≠ "getRevision" →
  method req ≠ "sqrt" →
  p_api_key (params_of req) ≠ Some (API_KEY s) →
  jsonrpc_handler now maxNewton req s
  = (jsonrpc_response (id req) JNull (err (-401) "message" "Invalid API key"),
     s).
Proof.
  intros Hrev Hsqrt Hkey. unfold jsonrpc_handler.
  rewrite !decide_False by done. by rewrite decide_True.
Qed.

(** C6.  For every method other than [getRevision] and [sqrt], a call whose
    [params["api_key"]] differs from the configured secret is answered with
    the error of code -401, whatever the method is (the guard comes before
    the dispatch), and the whole state, registry and file, is what it was. *)
Theorem invalid_api_key_rejected now maxNewton req s :
  method req ≠ "getRevision" →
  method req ≠ "sqrt" →
  p_api_key (params_of req) ≠ Some (API_KEY s) →
  jsonrpc_handler now maxNewton req s
  = (Error (id req)
       (JObj [("code", JInt (-401)); ("message", JStr "Invalid API key")]),
     s).
Proof.
  intros Hrev Hsqrt Hkey. unfold jsonrpc_handler.
  destruct (decide (method req = "getRevision")) as [Heq | _]; [done|].
  destruct (decide (method req = "sqrt")) as [Heq | _]; [done|].
  destruct (decide (p_api_key (params_of req) ≠ Some (API_KEY s)))
    as [_ | Heq]; [reflexivity | by destruct Heq].
Qed.

Lemma invalid_api_key_rejected_witness :
  method stop_1_wrong_key ≠ "getRevision" ∧
  method stop_1_wrong_key ≠ "sqrt" ∧
  p_api_key (params_of stop_1_wrong_key) ≠ Some (API_KEY s0) ∧
  error_code (fst (jsonrpc_handler 0 75 stop_1_wrong_key s0))
  = Some (JInt (-401)) ∧
  snd (jsonrpc_handler 0 75 stop_1_wrong_key s0) = s0.
Proof.
  assert (method stop_1_wrong_key ≠ "getRevision") as H1 by (by intros ?).
  assert (method stop_1_wrong_key ≠ "sqrt") as H2 by (by intros ?).
  assert (p_api_key (params_of stop_1_wrong_key) ≠ Some (API_KEY s0))
    as H3 by (by intros ?).
  split; [exact H1|]. split; [exact H2|]. split; [exact H3|].
  rewrite (invalid_api_key_rejected 0 75 stop_1_wrong_key s0 H1 H2 H3).
  split; reflexivity.
Defined.

(** ** continueTest *)

(** C8.  A [continueTest] call that passes the two guards and whose
    [test_number] is that of the stored test [t] (found at position [k]):
    - when [t] is not in PAUSE, is answered with the validation error
      (code -1, "TEST NOT IN PAUSE") and changes nothing;
    - when [t] is in PAUSE, succeeds; the registry then holds at [k] a
      test whose [test_status_code] is RUN and whose
      [sample_reception_epoch_time] is the current time, with every other
      key as in [t]; the other tests are as before, and the file holds the
      new state. *)
Theorem continueTest_only_from_pause now maxNewton req s k t :
  method req = "continueTest" →
  p_api_key (params_of req) = Some (API_KEY s) →
  p_device_id (params_of req) = deviceId (config s) →
  find_test (p_test_number (params_of req)) (list_of_tests s) = Some (k, t) →
  let r := fst (jsonrpc_handler now maxNewton req s) in
  let s' := snd (jsonrpc_handler now maxNewton req s) in
  (test_status_code t ≠ "PAUSE" →
     r = Error (id req)
           (JObj [("code", JInt (-1)); ("status", JStr "TEST NOT IN PAUSE")]) ∧
     s' = s) ∧
  (test_status_code t = "PAUSE" →
     r = Result (id req) (JObj [("status", JStr "OK")]) ∧
     (∃ t', list_of_tests s' = <[k := t']> (list_of_tests s) ∧
            list_of_tests s' !! k = Some t' ∧
            test_status_code t' = "RUN" ∧
            sample_reception_epoch_time t' = now ∧
            stop_mode_id t' = stop_mode_id t ∧
            same_record t t') ∧
     config_json s' = config s').
Proof.
  intros Hm Hkey Hdev Hfind r s'. subst r s'.
  rewrite dispatch_continueTest by done.
  unfold continueTest. rewrite decide_False by (by intros ?). rewrite Hfind.
  apply find_test_Some in Hfind as [Hk _]. apply lookup_lt_Some in Hk.
  split; intros Hst.
  - by rewrite decide_True.
  - rewrite decide_False by (by intros ?). cbn [fst snd].
    split; [done|]. split; [|done].
    exists (with_reception_time now (with_status_code "RUN" t)).
    split; [done|].
    split; [unfold list_of_tests; simpl; by rewrite list_lookup_insert_eq|].
    by repeat split.
Qed.

Lemma continueTest_only_from_pause_witness :
  (find_test (Some 1) (list_of_tests s0) = Some (1%nat, T1) ∧
   test_status_code T1 = "PAUSE" ∧
   sample_reception_epoch_time T1 = 1000000000 ∧
   fst (jsonrpc_handler 3000000000 75 continue_1 s0)
   = Result (IdInt 40) (JObj [("status", JStr "OK")]) ∧
   ∃ t', list_of_tests (snd (jsonrpc_handler 3000000000 75 continue_1 s0))
         = [T0; t'] ∧
         test_status_code t' = "RUN" ∧
         sample_reception_epoch_time t' = 3000000000 ∧
         test_description t' = "T1") ∧
  (find_test (Some 0) (list_of_tests s0) = Some (0%nat, T0) ∧
   test_status_code T0 ≠ "PAUSE" ∧
   is_error (fst (jsonrpc_handler 3000000000 75 continue_0 s0)) = true ∧
   snd (jsonrpc_handler 3000000000 75 continue_0 s0) = s0).
Proof.
  assert (find_test (p_test_number (params_of continue_1)) (list_of_tests s0)
          = Some (1%nat, T1)) as Hf1 by reflexivity.
  assert (find_test (p_test_number (params_of continue_0)) (list_of_tests s0)
          = Some (0%nat, T0)) as Hf0 by reflexivity.
  assert (test_status_code T0 ≠ "PAUSE") as Hend by (by intros ?).
  split.
  - split; [exact Hf1|]. split; [reflexivity|]. split; [reflexivity|].
    destruct (proj2 (continueTest_only_from_pause 3000000000 75 continue_1 s0
                       1 T1 eq_refl eq_refl eq_refl Hf1) eq_refl)
      as (Hr & (t' & Hl & _ & Hrun & Htime & _ & Hsame) & _).
    split; [exact Hr|]. exists t'.
    split; [exact Hl|]. split; [exact Hrun|]. split; [exact Htime|].
    destruct Hsame as (_ & _ & Hd & _). exact Hd.
  - split; [exact Hf0|]. split; [exact Hend|].
    destruct (proj1 (continueTest_only_from_pause 3000000000 75 continue_0 s0
                       0 T0 eq_refl eq_refl eq_refl Hf0) Hend) as (Hr & Hs).
    split; [by rewrite Hr | exact Hs].
Defined.

(** ** stopTest *)

(** C3.  A [stopTest] call that passes the two guards and addresses the
    stored test [t], in status RUN, where
    [elapsed = now - sample_reception_epoch_time t]:
    - when [elapsed] is strictly less than the configured duration, it
      returns the success result and the registry holds at [k] a test
      whose [test_status_code] is PAUSE, every other key as in [t];
    - when [elapsed] is at or beyond the duration, it returns a failure
      (code -1, "TEST NOT STOPPABLE") and the registry holds at [k] a test
      whose [test_status_code] is END and whose [stop_mode_id] is 2, every
      other key as in [t];
    - so success with the test in PAUSE happens exactly when
      [elapsed < duration].
    In both cases the other tests are as before. *)
Theorem stopTest_running now maxNewton req s k t :
  method req = "stopTest" →
  p_api_key (params_of req) = Some (API_KEY s) →
  p_device_id (params_of req) = deviceId (config s) →
  find_test (p_test_number (params_of req)) (list_of_tests s) = Some (k, t) →
  test_status_code t = "RUN" →
  let elapsed := now - sample_reception_epoch_time t in
  let duration := test_duration_seconds (config s) in
  let r := fst (jsonrpc_handler now maxNewton req s) in
  let s' := snd (jsonrpc_handler now maxNewton req s) in
  (elapsed < duration →
     r = Result (id req) (JObj [("status", JStr "OK")]) ∧
     ∃ t', list_of_tests s' = <[k := t']> (list_of_tests s) ∧
           list_of_tests s' !! k = Some t' ∧
           test_status_code t' = "PAUSE" ∧
           stop_mode_id t' = stop_mode_id t ∧
           sample_reception_epoch_time t' = sample_reception_epoch_time t ∧
           same_record t t') ∧
  (elapsed >= duration →
     r = Error (id req)
           (JObj [("code", JInt (-1)); ("status", JStr "TEST NOT STOPPABLE")]) ∧
     ∃ t', list_of_tests s' = <[k := t']> (list_of_tests s) ∧
           list_of_tests s' !! k = Some t' ∧
           test_status_code t' = "END" ∧
           stop_mode_id t' = Some 2 ∧
           sample_reception_epoch_time t' = sample_reception_epoch_time t ∧
           same_record t t') ∧
  (is_error r = false ∧
   test_status_code <$> list_of_tests s' !! k = Some "PAUSE"
   ↔ elapsed < duration).
Proof.
  intros Hm Hkey Hdev Hfind Hrun elapsed duration r s'.
  subst r s' elapsed duration.
  rewrite dispatch_stopTest by done.
  unfold stopTest. rewrite decide_False by (by intros ?). rewrite Hfind.
  rewrite decide_False by (by intros ?).
  apply find_test_Some in Hfind as [Hk _].
  apply lookup_lt_Some in Hk.
  case_decide as Hel; cbn [fst snd].
  - split_and!; [lia | |].
    + intros _. split; [done|].
      exists (with_stop_mode_id 2 (with_status_code "END" t)).
      split; [done|].
      split; [unfold list_of_tests; simpl; by rewrite list_lookup_insert_eq|].
      by repeat split.
    + split; [| lia]. intros [? _]. done.
  - split_and!; [| lia |].
    + intros _. split; [done|].
      exists (with_status_code "PAUSE" t).
      split; [done|].
      split; [unfold list_of_tests; simpl; by rewrite list_lookup_insert_eq|].
      by repeat split.
    + split; [lia |]. intros _. split; [done|].
      unfold list_of_tests; simpl. by rewrite list_lookup_insert_eq.
Qed.

Lemma stopTest_running_witness :
  (4000000010 - 4000000000
   < test_duration_seconds (config (s_run 4000000000)) ∧
   fst (jsonrpc_handler 4000000010 75 stop_1 (s_run 4000000000))
   = Result (IdInt 50) (JObj [("status", JStr "OK")]) ∧
   ∃ t', list_of_tests
           (snd (jsonrpc_handler 4000000010 75 stop_1 (s_run 4000000000)))
         = [T0; t'] ∧
         test_status_code t' = "PAUSE" ∧
         stop_mode_id t' = None) ∧
  (4000010000 - 4000000000
   >= test_duration_seconds (config (s_run 4000000000)) ∧
   is_error (fst (jsonrpc_handler 4000010000 75 stop_1 (s_run 4000000000)))
   = true ∧
   ∃ t', list_of_tests
           (snd (jsonrpc_handler 4000010000 75 stop_1 (s_run 4000000000)))
         = [T0; t'] ∧
         test_status_code t' = "END" ∧
         stop_mode_id t' = Some 2).
Proof.
  assert (find_test (p_test_number (params_of stop_1))
            (list_of_tests (s_run 4000000000))
          = Some (1%nat, T1_run 4000000000)) as Hf by reflexivity.
  split.
  - split; [reflexivity|].
    destruct (proj1 (stopTest_running 4000000010 75 stop_1 (s_run 4000000000)
                       1 (T1_run 4000000000)
                       eq_refl eq_refl eq_refl Hf eq_refl) eq_refl)
      as (Hr & t' & Hl & _ & Hst & Hsm & _).
    split; [exact Hr|]. exists t'.
    split; [exact Hl|]. split; [exact Hst | exact Hsm].
  - assert (4000010000 - 4000000000
            >= test_duration_seconds (config (s_run 4000000000)))
      as Hge by (by intros ?).
    split; [exact Hge|].
    destruct (proj1 (proj2 (stopTest_running 4000010000 75 stop_1
                              (s_run 4000000000) 1 (T1_run 4000000000)
                              eq_refl eq_refl eq_refl Hf eq_refl)) Hge)
      as (Hr & t' & Hl & _ & Hst & Hsm & _).
    split; [by rewrite Hr|]. exists t'.
    split; [exact Hl|]. split; [exact Hst | exact Hsm].
Defined.

(** ** cloneAndStartTest *)

Lemma fold_left_append {A B} (f : A → B) (l : list A) (acc : list B) :
  fold_left (λ acc x, acc ++ [f x]) l acc = acc ++ (f <$> l).
Proof.
  revert acc. induction l as [|x l IH]; intros acc; simpl.
  - by rewrite app_nil_r.
  - rewrite IH. by rewrite <- app_assoc.
Qed.

Lemma range_0_10000_5 :
  range 0 10000 5 = (λ k : nat, 5 * Z.of_nat k) <$> seq 0 2000.
Proof.
  unfold range.
  replace (Z.to_nat ((10000 - 0 + 5 - 1) / 5)) with 2000%nat by reflexivity.
  apply list_fmap_ext. intros _ k _. lia.
Qed.

(** The loop of the clone branch, as one map over the sample indices. *)
Lemma results_data_map maxNewton :
  results_data maxNewton
  = (λ k : nat, sample maxNewton (5 * Z.of_nat k)) <$> seq 0 2000.
Proof.
  unfold results_data.
  rewrite fold_left_append, range_0_10000_5, app_nil_l.
  symmetry. apply (list_fmap_compose (λ k : nat, 5 * Z.of_nat k)).
Qed.

Lemma delta_t_below_100 :
  forallb (λ k : nat, (float_of_Z (5 * Z.of_nat k) / 100 <? 100)%float)
    (seq 0 2000) = true.
Proof. vm_compute. reflexivity. Qed.

(** The outcome of the clone branch once the guards and the source lookup
    have passed. *)
Lemma cloneAndStartTest_found now maxNewton i p s src last_t :
  p_device_id p = deviceId (config s) →
  find_test (p_test_number p) (list_of_tests s) = Some src →
  last (list_of_tests s) = Some last_t →
  cloneAndStartTest now maxNewton i p s
  = if decide (test_status_code last_t = "RUN") then
      (Error i
         (JObj [("code", JInt (-1));
                ("message", JStr "Cannot clone a running test")]),
       s)
    else
      (Result i
         (JObj [("status", JStr "OK");
                ("new_test_number", JInt (Z.of_nat (length (list_of_tests s))))]),
       save (set_tests
               (list_of_tests s ++
                [new_test now maxNewton (Z.of_nat (length (list_of_tests s))) p])
               s)).
Proof.
  intros Hdev Hfind Hlast. unfold cloneAndStartTest.
  rewrite decide_False by (by intros ?).
  rewrite Hfind, last_index, Hlast. by case_decide.
Qed.

(** C9.  A [cloneAndStartTest] call that passes the two guards and whose
    [test_number] matches no stored test is answered with the not-found
    error of code -1 and changes nothing (no test is appended).  Nothing is
    asked of the last test: the answer is the same whether it is in RUN or
    not, the source lookup coming first. *)
Theorem cloneAndStartTest_unknown_source now maxNewton req s :
  method req = "cloneAndStartTest" →
  p_api_key (params_of req) = Some (API_KEY s) →
  p_device_id (params_of req) = deviceId (config s) →
  (∀ t, t ∈ list_of_tests s →
        Some (test_number t) ≠ p_test_number (params_of req)) →
  jsonrpc_handler now maxNewton req s
  = (Error (id req)
       (JObj [("code", JInt (-1));
              ("message",
               JStr ("Test number " +:+
                     str_opt_int (p_test_number (params_of req)) +:+
                     " not found"))]),
     s).
Proof.
  intros Hm Hkey Hdev Hnone.
  rewrite dispatch_cloneAndStartTest by done.
  unfold cloneAndStartTest. rewrite decide_False by (by intros ?).
  assert (find_test (p_test_number (params_of req)) (list_of_tests s) = None)
    as ->.
  { unfold find_test. apply list_find_None, Forall_forall. exact Hnone. }
  done.
Qed.

Lemma cloneAndStartTest_unknown_source_witness :
  (* the last test is in PAUSE *)
  (last (list_of_tests s0) = Some T1 ∧
   error_code (fst (jsonrpc_handler 2000000000 75 clone_7 s0))
   = Some (JInt (-1)) ∧
   snd (jsonrpc_handler 2000000000 75 clone_7 s0) = s0) ∧
  (* the last test is in RUN *)
  (last (list_of_tests (s_run 5)) = Some (T1_run 5) ∧
   fst (jsonrpc_handler 2000000000 75 clone_7 (s_run 5))
   = Error (IdInt 31)
       (JObj [("code", JInt (-1));
              ("message", JStr "Test number 7 not found")]) ∧
   snd (jsonrpc_handler 2000000000 75 clone_7 (s_run 5)) = s_run 5).
Proof.
  assert (∀ t, t ∈ list_of_tests s0 →
               Some (test_number t) ≠ p_test_number (params_of clone_7)) as H0.
  { by apply find_test_None. }
  assert (∀ t, t ∈ list_of_tests (s_run 5) →
               Some (test_number t) ≠ p_test_number (params_of clone_7)) as H1.
  { by apply find_test_None. }
  split; (split; [reflexivity|]).
  - by rewrite (cloneAndStartTest_unknown_source 2000000000 75 clone_7 s0
                  eq_refl eq_refl eq_refl H0).
  - by rewrite (cloneAndStartTest_unknown_source 2000000000 75 clone_7 (s_run 5)
                  eq_refl eq_refl eq_refl H1).
Defined.

(** C1, as the code has it.  Let [last_t] be the most recently appended
    test.
    - Whenever [last_t] is in RUN, a [cloneAndStartTest] call fails and
      changes nothing.
    - Otherwise the call succeeds provided it passes the shared-secret and
      device guards and its [test_number] is that of a stored test: the
      registry grows by exactly one test, whose [test_number] is the size
      of the registry before the call, which is also the
      [new_test_number] returned; the file holds the new state. *)
Theorem cloneAndStartTest_guard now maxNewton req s last_t :
  method req = "cloneAndStartTest" →
  last (list_of_tests s) = Some last_t →
  let r := fst (jsonrpc_handler now maxNewton req s) in
  let s' := snd (jsonrpc_handler now maxNewton req s) in
  let previousCount := Z.of_nat (length (list_of_tests s)) in
  (test_status_code last_t = "RUN" → is_error r = true ∧ s' = s) ∧
  (test_status_code last_t ≠ "RUN" →
   p_api_key (params_of req) = Some (API_KEY s) →
   p_device_id (params_of req) = deviceId (config s) →
   is_Some (find_test (p_test_number (params_of req)) (list_of_tests s)) →
     r = Result (id req)
           (JObj [("status", JStr "OK");
                  ("new_test_number", JInt previousCount)]) ∧
     (∃ t, list_of_tests s' = list_of_tests s ++ [t] ∧
           test_number t = previousCount) ∧
     config_json s' = config s').
Proof.
  intros Hm Hlast r s' previousCount. subst r s' previousCount. split.
  - intros Hrun.
    destruct (decide (p_api_key (params_of req) = Some (API_KEY s)))
      as [Hkey | Hkey].
    + rewrite dispatch_cloneAndStartTest by done.
      destruct (decide (p_device_id (params_of req) = deviceId (config s)))
        as [Hdev | Hdev].
      * destruct (find_test (p_test_number (params_of req)) (list_of_tests s))
          as [src|] eqn:Hfind.
        -- rewrite (cloneAndStartTest_found _ _ _ _ _ src last_t) by done.
           by rewrite decide_True.
        -- unfold cloneAndStartTest.
           rewrite decide_False by (by intros ?). by rewrite Hfind.
      * unfold cloneAndStartTest. by rewrite decide_True.
    + rewrite dispatch_unauthorised; [done | | | done];
        rewrite Hm; by intros ?.
  - intros Hnot Hkey Hdev [src Hfind].
    rewrite dispatch_cloneAndStartTest by done.
    rewrite (cloneAndStartTest_found _ _ _ _ _ src last_t) by done.
    rewrite decide_False by done. simpl.
    split_and!; [done | | done].
    eexists. split; [reflexivity | done].
Qed.

Lemma cloneAndStartTest_guard_witness :
  (last (list_of_tests s0) = Some T1 ∧
   test_status_code T1 ≠ "RUN" ∧
   fst (jsonrpc_handler 2000000000 75 clone_0 s0)
   = Result (IdInt 30)
       (JObj [("status", JStr "OK"); ("new_test_number", JInt 2)]) ∧
   ∃ t, list_of_tests (snd (jsonrpc_handler 2000000000 75 clone_0 s0))
        = [T0; T1; t] ∧ test_number t = 2) ∧
  (last (list_of_tests (s_run 5)) = Some (T1_run 5) ∧
   test_status_code (T1_run 5) = "RUN" ∧
   is_error (fst (jsonrpc_handler 2000000000 75 clone_0 (s_run 5))) = true ∧
   snd (jsonrpc_handler 2000000000 75 clone_0 (s_run 5)) = s_run 5).
Proof.
  assert (test_status_code T1 ≠ "RUN") as Hnot by (by intros ?).
  assert (is_Some (find_test (p_test_number (params_of clone_0))
                     (list_of_tests s0))) as Hsrc by (by eexists).
  split.
  - split; [reflexivity|]. split; [exact Hnot|].
    destruct (proj2 (cloneAndStartTest_guard 2000000000 75 clone_0 s0 T1
                       eq_refl eq_refl) Hnot eq_refl eq_refl Hsrc)
      as (Hr & Ht & _).
    split; [exact Hr | exact Ht].
  - split; [reflexivity|]. split; [reflexivity|].
    exact (proj1 (cloneAndStartTest_guard 2000000000 75 clone_0 (s_run 5)
                    (T1_run 5) eq_refl eq_refl) eq_refl).
Defined.

(** C1 as the specification words it does not hold: with the registry
    [[END, PAUSE]] the last test is not in RUN, yet a clone of the unknown
    test number 7, with the right secret and device, fails and appends
    nothing. *)
Lemma cloneAndStartTest_not_always_success :
  p_api_key (params_of clone_7) = Some (API_KEY s0) ∧
  p_device_id (params_of clone_7) = deviceId (config s0) ∧
  last (list_of_tests s0) = Some T1 ∧
  test_status_code T1 ≠ "RUN" ∧
  is_error (fst (jsonrpc_handler 2000000000 75 clone_7 s0)) = true ∧
  list_of_tests (snd (jsonrpc_handler 2000000000 75 clone_7 s0))
  = list_of_tests s0.
Proof. split_and!; try reflexivity. by intros ?. Qed.

(** C5.  After a successful [cloneAndStartTest], with [maxNewton] the
    random peak, the registry has one more test; it is in RUN, received at
    the current time, and carries exactly one channel record.  The samples
    of that record are, for [k = 0 .. 1999], the pair of
    [delta_t = (5 k) / 100] (the binary64 quotient: 0, 0.05, 0.10, ...,
    99.95, all below 100) and of [value = delta_t] when
    [delta_t < maxNewton], [value = - delta_t + maxNewton * 2] otherwise.
    This holds for every [maxNewton], in particular for those of
    [[50, 100)]. *)
Theorem cloneAndStartTest_waveform now maxNewton req s :
  method req = "cloneAndStartTest" →
  is_error (fst (jsonrpc_handler now maxNewton req s)) = false →
  ∃ t c,
    list_of_tests (snd (jsonrpc_handler now maxNewton req s))
    = list_of_tests s ++ [t] ∧
    test_status_code t = "RUN" ∧
    sample_reception_epoch_time t = now ∧
    list_of_channel_acquired_data t = Value [c] ∧
    list_of_data_points c
    = (λ k : nat,
         let dt := (float_of_Z (5 * Z.of_nat k) / 100)%float in
         {| delta_t := dt;
            value := if (dt <? maxNewton)%float then dt
                     else (- dt + maxNewton * 2)%float |}) <$> seq 0 2000 ∧
    delta_t <$> take 3 (list_of_data_points c) = [0; 0.05; 0.1]%float ∧
    delta_t <$> last (list_of_data_points c) = Some 99.95%float ∧
    Forall (λ d, (delta_t d <? 100)%float = true) (list_of_data_points c).
Proof.
  intros Hm Hok.
  destruct (decide (p_api_key (params_of req) = Some (API_KEY s)))
    as [Hkey | Hkey].
  2: { rewrite dispatch_unauthorised in Hok; [done | | | done];
         rewrite Hm; by intros ?. }
  rewrite dispatch_cloneAndStartTest in Hok |- * by done.
  unfold cloneAndStartTest in *.
  case_decide; [done|].
  destruct (find_test _ _) as [src|]; [|done].
  destruct (list_of_tests s !! _) as [last_t|]; [|done].
  case_decide; [done|]. clear Hok.
  exists (new_test now maxNewton (Z.of_nat (length (list_of_tests s)))
            (params_of req)),
    {| stage_name := "COMPRESSION_STAGE"; sub_stage_index := 1;
       channel_type := "Analog"; channel_index := 1;
       list_of_data_points := results_data maxNewton |}.
  cbn [list_of_data_points]. rewrite results_data_map.
  split; [reflexivity|]. split; [reflexivity|]. split; [reflexivity|].
  split; [unfold new_test; cbn [list_of_channel_acquired_data];
          by rewrite results_data_map|].
  split; [reflexivity|].
  split; [vm_compute; reflexivity|].
  split; [vm_compute; reflexivity|].
  apply Forall_fmap, Forall_forall. intros k Hk.
  pose proof delta_t_below_100 as Hall.
  rewrite forallb_forall in Hall. apply Hall.
  by apply list_elem_of_In.
Qed.

Lemma cloneAndStartTest_waveform_witness :
  method clone_0 = "cloneAndStartTest" ∧
  is_error (fst (jsonrpc_handler 2000000000 75 clone_0 s0)) = false ∧
  ∃ t c,
    list_of_tests (snd (jsonrpc_handler 2000000000 75 clone_0 s0))
    = [T0; T1; t] ∧
    test_status_code t = "RUN" ∧
    sample_reception_epoch_time t = 2000000000 ∧
    list_of_channel_acquired_data t = Value [c] ∧
    length (list_of_data_points c) = 2000%nat ∧
    (λ d, (delta_t d, value d)) <$> list_of_data_points c !! 1000%nat
    = Some (50, 50)%float ∧
    (λ d, (delta_t d, value d)) <$> list_of_data_points c !! 1500%nat
    = Some (75, 75)%float ∧
    (λ d, (delta_t d, value d)) <$> list_of_data_points c !! 1600%nat
    = Some (80, 70)%float.
Proof.
  assert (is_error (fst (jsonrpc_handler 2000000000 75 clone_0 s0)) = false)
    as Hok by (vm_compute; reflexivity).
  split; [reflexivity|]. split; [exact Hok|].
  destruct (cloneAndStartTest_waveform 2000000000 75 clone_0 s0 eq_refl Hok)
    as (t & c & Hl & Hrun & Htime & Hc & Hpts & _).
  exists t, c. split_and!; try done.
  - rewrite Hpts. by rewrite length_fmap, length_seq.
  - rewrite Hpts. vm_compute. reflexivity.
  - rewrite Hpts. vm_compute. reflexivity.
  - rewrite Hpts. vm_compute. reflexivity.
Defined.

(** ** Every branch of the dispatcher has one of the four effects *)

Lemma auto_complete_effect now r req s k t :
  list_of_tests s !! k = Some t →
  effect r req s
    (save (set_tests
             (<[k := auto_complete now (test_duration_seconds (config s)) t]>
                (list_of_tests s)) s)).
Proof.
  intros Hk. eapply Replaced; [exact Hk | | reflexivity].
  destruct (auto_complete_cases now (test_duration_seconds (config s)) t)
    as [-> | [Hrun _]]; [by left | right].
  rewrite Hrun. by intros ?.
Qed.

Ltac on_method m :=
  destruct (decide (method _ = m)) as [_ | _].

(** The cases of the [sqrt] branch on its argument. *)
Ltac sqrt_cases :=
  unfold sqrt; cbn zeta;
  destruct (p_x _) as [[| b | z | x | str | l | o]|];
  [ | | destruct (z <? 0); [| destruct (float_of_int z)]
    | destruct (x <? 0)%float | | | | ].

Lemma jsonrpc_handler_effect now maxNewton req s :
  effect (fst (jsonrpc_handler now maxNewton req s)) req s
         (snd (jsonrpc_handler now maxNewton req s)).
Proof.
  unfold jsonrpc_handler.
  on_method "getRevision"; [by apply Untouched|].
  on_method "sqrt".
  { sqrt_cases; by apply Untouched. }
  destruct (decide (p_api_key _ ≠ _)) as [_ | _]; [by apply Untouched|].
  on_method "getListOfAllMachines"; [by apply Untouched|].
  on_method "getMachineIdentity".
  { unfold getMachineIdentity. case_decide; by apply Untouched. }
  on_method "getMachineStatus".
  { unfold getMachineStatus. case_decide; by apply Untouched. }
  on_method "getListOfAllTests".
  { unfold getListOfAllTests. case_decide; by apply Untouched. }
  on_method "getListOfAllTestsBySpecimenCode".
  { unfold getListOfAllTestsBySpecimenCode. case_decide; [by apply Untouched|].
    simpl. destruct (filter _ _); by apply Untouched. }
  on_method "getTestInfoAndStatus".
  { unfold getTestInfoAndStatus. case_decide; [by apply Untouched|].
    destruct (find_test _ _) as [[k t]|] eqn:Hf; [|by apply Untouched].
    apply find_test_Some in Hf as [Hk _]. by apply auto_complete_effect. }
  on_method "getCustomer"; [by apply Untouched|].
  on_method "getListOfAllCustomers"; [by apply Untouched|].
  on_method "getTestAcquisitionSettings".
  { unfold getTestAcquisitionSettings. case_decide; [by apply Untouched|].
    destruct (find_test _ _) as [[k t]|]; by apply Untouched. }
  on_method "getTestAcquiredDataAndResults".
  { unfold getTestAcquiredDataAndResults.
    destruct (find_test _ _) as [[k t]|] eqn:Hf; [|by apply Untouched].
    apply find_test_Some in Hf as [Hk _]. by apply auto_complete_effect. }
  on_method "cloneAndStartTest".
  { unfold cloneAndStartTest. case_decide; [by apply Untouched|].
    destruct (find_test _ _) as [src|]; [|by apply Untouched].
    destruct (list_of_tests s !! _) as [last_t|]; [|by apply Untouched].
    case_decide; [by apply Untouched|]. by eapply Appended. }
  on_method "continueTest".
  { unfold continueTest. case_decide; [by apply Untouched|].
    destruct (find_test _ _) as [[k t]|] eqn:Hf; [|by apply Untouched].
    apply find_test_Some in Hf as [Hk _].
    case_decide as Hp; [by apply Untouched|].
    eapply Replaced; [exact Hk | right | reflexivity].
    rewrite Hp. by intros ?. }
  destruct (decide (method req = "stopTest")) as [Hstop | _];
    [|by apply Untouched].
  unfold stopTest. case_decide; [by apply Untouched|].
  destruct (find_test _ _) as [[k t]|] eqn:Hf; [|by apply Untouched].
  apply find_test_Some in Hf as [Hk _].
  case_decide as Hr; [by apply Untouched|].
  case_decide.
  - by eapply EndedUnsaved.
  - eapply Replaced; [exact Hk | right | reflexivity].
    rewrite Hr. by intros ?.
Qed.

(** No call touches the settings: the secret, the device and the duration
    read by a call are those of start-up. *)
Lemma jsonrpc_handler_keeps_settings now maxNewton req s :
  let s' := snd (jsonrpc_handler now maxNewton req s) in
  API_KEY s' = API_KEY s ∧
  deviceId (config s') = deviceId (config s) ∧
  test_duration_seconds (config s') = test_duration_seconds (config s).
Proof.
  intros s'. subst s'.
  by destruct (jsonrpc_handler_effect now maxNewton req s)
    as [-> | ? ? ? _ _ -> | ? -> | ? ? _ _ _ _ ->].
Qed.

(** ** END is terminal *)

Lemma effect_keeps_ended r req s s' i t :
  effect r req s s' →
  list_of_tests s !! i = Some t →
  test_status_code t = "END" →
  list_of_tests s' !! i = Some t.
Proof.
  intros He Hi Hend.
  destruct He as [-> | k u u' Hk Hu -> | u -> | k u _ _ Hk Hrun ->];
    unfold list_of_tests in *; simpl.
  - done.
  - destruct (decide (k = i)) as [-> | Hne].
    + assert (u = t) as -> by congruence.
      destruct Hu as [-> | Hu]; [|done].
      by rewrite list_insert_id.
    + by rewrite list_lookup_insert_ne.
  - by apply lookup_app_l_Some.
  - destruct (decide (k = i)) as [-> | Hne].
    + assert (u = t) as -> by congruence. congruence.
    + by rewrite list_lookup_insert_ne.
Qed.

(** C2.  A stored test whose [test_status_code] is END is never changed
    again: after any sequence of calls, of whatever methods, parameters,
    clock readings and random draws, the registry holds the very same test
    at the same position; its status is END, not RUN or PAUSE. *)
Theorem END_is_terminal (cs : list call) s i t :
  list_of_tests s !! i = Some t →
  test_status_code t = "END" →
  list_of_tests (run cs s) !! i = Some t ∧
  test_status_code <$> list_of_tests (run cs s) !! i = Some "END".
Proof.
  intros Hi Hend.
  assert (list_of_tests (run cs s) !! i = Some t) as H.
  { revert s Hi. unfold run.
    induction cs as [|[[now maxNewton] req] cs IH]; intros s Hi; simpl.
    - done.
    - apply IH. eapply effect_keeps_ended; [|done..].
      apply jsonrpc_handler_effect. }
  split; [done|]. by rewrite H, <- Hend.
Qed.

Lemma END_is_terminal_witness :
  list_of_tests s0 !! 0%nat = Some T0 ∧
  test_status_code T0 = "END" ∧
  length (list_of_tests (run session s0)) = 3%nat ∧
  list_of_tests (run session s0) !! 0%nat = Some T0 ∧
  test_status_code <$> list_of_tests (run session s0) !! 0%nat = Some "END".
Proof.
  split; [reflexivity|]. split; [reflexivity|].
  split; [vm_compute; reflexivity|].
  exact (END_is_terminal session s0 0 T0 eq_refl eq_refl).
Defined.

(** ** The path of [stopTest] that does not save *)

Lemma with_tests_changes c l : l ≠ tests c → with_tests l c ≠ c.
Proof. intros Hne Heq. apply Hne. by rewrite <- Heq. Qed.

(** C10.  On the duration-exceeded branch of [stopTest] the registry in
    memory holds at [k] a test whose [test_status_code] is END and whose
    [stop_mode_id] is 2 (every other key as before) and the failure is
    returned while [config.json] is left as it was: if memory and file
    agreed before the call, the file still holds the test as it was, in RUN
    and with its former [stop_mode_id], and they differ after it.  It is
    the only such path: whenever any call changes the in-memory
    configuration, either the file holds the new configuration when the
    call returns, or the call is a [stopTest] answered with
    "TEST NOT STOPPABLE". *)
Theorem stopTest_elapsed_not_saved now maxNewton req s k t :
  method req = "stopTest" →
  p_api_key (params_of req) = Some (API_KEY s) →
  p_device_id (params_of req) = deviceId (config s) →
  find_test (p_test_number (params_of req)) (list_of_tests s) = Some (k, t) →
  test_status_code t = "RUN" →
  now - sample_reception_epoch_time t >= test_duration_seconds (config s) →
  let r := fst (jsonrpc_handler now maxNewton req s) in
  let s' := snd (jsonrpc_handler now maxNewton req s) in
  (is_error r = true ∧
   (∃ t', list_of_tests s' = <[k := t']> (list_of_tests s) ∧
          list_of_tests s' !! k = Some t' ∧
          test_status_code t' = "END" ∧
          stop_mode_id t' = Some 2 ∧
          sample_reception_epoch_time t' = sample_reception_epoch_time t ∧
          same_record t t') ∧
   config_json s' = config_json s ∧
   (config_json s = config s →
    tests (config_json s') !! k = Some t ∧
    config_json s' ≠ config s')) ∧
  (∀ now1 maxNewton1 req1 s1,
     let r1 := fst (jsonrpc_handler now1 maxNewton1 req1 s1) in
     let s1' := snd (jsonrpc_handler now1 maxNewton1 req1 s1) in
     config s1' ≠ config s1 →
     config_json s1' = config s1' ∨
     (method req1 = "stopTest" ∧
      r1 = Error (id req1)
             (JObj [("code", JInt (-1));
                    ("status", JStr "TEST NOT STOPPABLE")]))).
Proof.
  intros Hm Hkey Hdev Hfind Hrun Hel r s'. subst r s'. split.
  - rewrite dispatch_stopTest by done.
    unfold stopTest. rewrite decide_False by (by intros ?). rewrite Hfind.
    rewrite decide_False by (by intros ?). rewrite decide_True by done.
    apply find_test_Some in Hfind as [Hk _].
    cbn [fst snd]. split; [done|]. split.
    { exists (with_stop_mode_id 2 (with_status_code "END" t)).
      split; [done|]. split; [|by repeat split].
      unfold list_of_tests; simpl. apply list_lookup_insert_eq.
      by eapply lookup_lt_Some. }
    split; [done|]. intros Hsync. cbn [config_json set_tests].
    split; [by rewrite Hsync|].
    intros Heq. rewrite Hsync in Heq. symmetry in Heq. revert Heq.
    apply with_tests_changes.
    eapply insert_changes; [exact Hk|].
    intros Ht. apply (f_equal test_status_code) in Ht.
    simpl in Ht. by rewrite Hrun in Ht.
  - intros now1 maxNewton1 req1 s1 r1 s1' Hchg. subst r1 s1'.
    destruct (jsonrpc_handler_effect now1 maxNewton1 req1 s1)
      as [Heq | k1 u u' _ _ Heq | u Heq | k1 u Hstop Hr _ _ _].
    + by rewrite Heq in Hchg.
    + left. by rewrite Heq.
    + left. by rewrite Heq.
    + by right.
Qed.

Lemma stopTest_elapsed_not_saved_witness :
  config_json (s_run 5000000000) = config (s_run 5000000000) ∧
  5000010000 - 5000000000
  >= test_duration_seconds (config (s_run 5000000000)) ∧
  is_error (fst (jsonrpc_handler 5000010000 75 stop_1 (s_run 5000000000)))
  = true ∧
  (∃ t', list_of_tests
           (snd (jsonrpc_handler 5000010000 75 stop_1 (s_run 5000000000)))
         = [T0; t'] ∧
         test_status_code t' = "END" ∧
         stop_mode_id t' = Some 2) ∧
  tests (config_json
           (snd (jsonrpc_handler 5000010000 75 stop_1 (s_run 5000000000))))
  = [T0; T1_run 5000000000] ∧
  test_status_code (T1_run 5000000000) = "RUN" ∧
  stop_mode_id (T1_run 5000000000) = None ∧
  config_json (snd (jsonrpc_handler 5000010000 75 stop_1 (s_run 5000000000)))
  ≠ config (snd (jsonrpc_handler 5000010000 75 stop_1 (s_run 5000000000))).
Proof.
  assert (find_test (p_test_number (params_of stop_1))
            (list_of_tests (s_run 5000000000))
          = Some (1%nat, T1_run 5000000000)) as Hf by reflexivity.
  assert (5000010000 - 5000000000
          >= test_duration_seconds (config (s_run 5000000000)))
    as Hge by (by intros ?).
  destruct (proj1 (stopTest_elapsed_not_saved 5000010000 75 stop_1
                     (s_run 5000000000) 1 (T1_run 5000000000)
                     eq_refl eq_refl eq_refl Hf eq_refl Hge))
    as (Hr & (t' & Hl & _ & Hst & Hsm & _) & Hfile & Hdiv).
  split; [reflexivity|]. split; [exact Hge|]. split; [exact Hr|].
  split; [exists t'; split; [exact Hl|]; split; [exact Hst | exact Hsm]|].
  split; [by rewrite Hfile|]. split; [reflexivity|]. split; [reflexivity|].
  exact (proj2 (Hdiv eq_refl)).
Defined.

(** ** Queries after the duration has elapsed *)

Lemma auto_complete_ends now d t :
  test_status_code t = "RUN" ∨ test_status_code t = "END" →
  now >= sample_reception_epoch_time t + d →
  test_status_code (auto_complete now d t) = "END".
Proof.
  intros [Hrun | Hend] Hel.
  - rewrite auto_complete_elapsed by (done || lia). done.
  - rewrite auto_complete_not_running; [done|]. rewrite Hend. by intros ?.
Qed.

Lemma auto_complete_again now now' d t :
  test_status_code (auto_complete now d t) = "END" →
  auto_complete now' d (auto_complete now d t) = auto_complete now d t.
Proof.
  intros Hend. apply auto_complete_not_running. rewrite Hend. by intros ?.
Qed.

(** C4, as the code has it.  For a stored test [t] whose status is RUN or
    END, two [getTestInfoAndStatus] calls in succession, both passing the
    guards and both made at or after
    [sample_reception_epoch_time t + duration], return the same result
    object, whose [test_status_code] is END. *)
Theorem getTestInfoAndStatus_twice now1 now2 m1 m2 req1 req2 s k t :
  method req1 = "getTestInfoAndStatus" →
  method req2 = "getTestInfoAndStatus" →
  p_api_key (params_of req1) = Some (API_KEY s) →
  p_api_key (params_of req2) = Some (API_KEY s) →
  p_device_id (params_of req1) = deviceId (config s) →
  p_device_id (params_of req2) = deviceId (config s) →
  p_test_number (params_of req2) = p_test_number (params_of req1) →
  find_test (p_test_number (params_of req1)) (list_of_tests s) = Some (k, t) →
  test_status_code t = "RUN" ∨ test_status_code t = "END" →
  now1 >= sample_reception_epoch_time t + test_duration_seconds (config s) →
  now2 >= sample_reception_epoch_time t + test_duration_seconds (config s) →
  let r1 := fst (jsonrpc_handler now1 m1 req1 s) in
  let s1 := snd (jsonrpc_handler now1 m1 req1 s) in
  let r2 := fst (jsonrpc_handler now2 m2 req2 s1) in
  ∃ j, r1 = Result (id req1) j ∧ r2 = Result (id req2) j ∧
       get "test_status_code" j = Some (JStr "END").
Proof.
  intros Hm1 Hm2 Hkey1 Hkey2 Hdev1 Hdev2 Hn Hfind Hst Hel1 Hel2 r1 s1 r2.
  subst r1 s1 r2.
  pose proof (auto_complete_ends _ _ _ Hst Hel1) as Hend.
  rewrite (dispatch_getTestInfoAndStatus now1) by done.
  unfold getTestInfoAndStatus.
  rewrite decide_False by (by intros ?). rewrite Hfind.
  cbn [fst snd].
  rewrite (dispatch_getTestInfoAndStatus now2) by done.
  unfold getTestInfoAndStatus.
  rewrite decide_False by (by intros ?).
  rewrite Hn.
  unfold list_of_tests at 1 2. cbn [save set_tests with_tests config tests].
  erewrite find_test_insert;
    [| exact Hfind | apply auto_complete_test_number].
  cbn [test_duration_seconds]. rewrite auto_complete_again by done.
  eexists. split; [reflexivity|]. split; [reflexivity|].
  simpl. by rewrite Hend.
Qed.

Lemma getTestInfoAndStatus_twice_witness :
  find_test (Some 1) (list_of_tests (s_run 1000000000))
  = Some (1%nat, T1_run 1000000000) ∧
  test_status_code (T1_run 1000000000) = "RUN" ∧
  1000010000
  >= 1000000000 + test_duration_seconds (config (s_run 1000000000)) ∧
  1000020000
  >= 1000000000 + test_duration_seconds (config (s_run 1000000000)) ∧
  ∃ j,
    fst (jsonrpc_handler 1000010000 75 info_1 (s_run 1000000000))
    = Result (IdInt 20) j ∧
    fst (jsonrpc_handler 1000020000 75 info_1
           (snd (jsonrpc_handler 1000010000 75 info_1 (s_run 1000000000))))
    = Result (IdInt 20) j ∧
    get "test_status_code" j = Some (JStr "END").
Proof.
  assert (find_test (p_test_number (params_of info_1))
            (list_of_tests (s_run 1000000000))
          = Some (1%nat, T1_run 1000000000)) as Hf by reflexivity.
  assert (1000010000
          >= 1000000000 + test_duration_seconds (config (s_run 1000000000)))
    as H1 by (by intros ?).
  assert (1000020000
          >= 1000000000 + test_duration_seconds (config (s_run 1000000000)))
    as H2 by (by intros ?).
  split; [exact Hf|]. split; [reflexivity|].
  split; [exact H1|]. split; [exact H2|].
  exact (getTestInfoAndStatus_twice 1000010000 1000020000 75 75 info_1 info_1
           (s_run 1000000000) 1 (T1_run 1000000000)
           eq_refl eq_refl eq_refl eq_refl eq_refl eq_refl
           eq_refl Hf (or_introl eq_refl) H1 H2).
Defined.

(** C4 as the specification words it does not hold for every test: the
    paused test 1 of the sample catalog, queried twice long after
    [sample_reception_epoch_time + duration], is reported in PAUSE both
    times, not in END. *)
Lemma getTestInfoAndStatus_paused_not_ended :
  find_test (Some 1) (list_of_tests s0) = Some (1%nat, T1) ∧
  1000010000
  >= sample_reception_epoch_time T1 + test_duration_seconds (config s0) ∧
  result_field "test_status_code"
    (fst (jsonrpc_handler 1000010000 75 info_1 s0))
  = Some (JStr "PAUSE") ∧
  result_field "test_status_code"
    (fst (jsonrpc_handler 1000020000 75 info_1
            (snd (jsonrpc_handler 1000010000 75 info_1 s0))))
  = Some (JStr "PAUSE") ∧
  result_field "test_status_code"
    (fst (jsonrpc_handler 1000010000 75 info_1 s0))
  ≠ Some (JStr "END").
Proof. split_and!; try reflexivity; by intros ?. Qed.

(** ** getTestAcquiredDataAndResults *)

(** C7, as the code has it.  [getTestAcquiredDataAndResults] asks nothing
    of [device_id].  For a stored test [t] in RUN received at [T], with
    the duration configured to 60, a call at [T + 10000] ends the test: the
    registry holds at [k] a test whose [test_status_code] is END and whose
    [stop_mode_id] is 2, with the channel data and every other key as in
    [t], and the file holds the new state.  The result object carries
    [status], [stop_mode_id] 2 and the channel data stored before the call
    (the list as stored; a JSON null where a null is stored; an empty list
    where the test has no such key).  It carries no status code of the
    test. *)
Theorem getTestAcquiredDataAndResults_after_duration T maxNewton req s k t :
  method req = "getTestAcquiredDataAndResults" →
  p_api_key (params_of req) = Some (API_KEY s) →
  find_test (p_test_number (params_of req)) (list_of_tests s) = Some (k, t) →
  test_status_code t = "RUN" →
  sample_reception_epoch_time t = T →
  test_duration_seconds (config s) = 60 →
  let r := fst (jsonrpc_handler (T + 10000) maxNewton req s) in
  let s' := snd (jsonrpc_handler (T + 10000) maxNewton req s) in
  r = Result (id req)
        (JObj [("status", JStr "OK");
               ("list_of_channel_acquired_data",
                match list_of_channel_acquired_data t with
                | Absent => JList []
                | Null => JNull
                | Value l => channels_json l
                end);
               ("stop_mode_id", JInt 2)]) ∧
  result_field "test_status_code" r = None ∧
  (∃ t', list_of_tests s' = <[k := t']> (list_of_tests s) ∧
         list_of_tests s' !! k = Some t' ∧
         test_status_code t' = "END" ∧
         stop_mode_id t' = Some 2 ∧
         list_of_channel_acquired_data t' = list_of_channel_acquired_data t ∧
         sample_reception_epoch_time t' = T ∧
         same_record t t') ∧
  config_json s' = config s'.
Proof.
  intros Hm Hkey Hfind Hrun HT Hd r s'. subst r s'.
  rewrite dispatch_getTestAcquiredDataAndResults by done.
  unfold getTestAcquiredDataAndResults. rewrite Hfind.
  rewrite auto_complete_elapsed by (done || lia).
  apply find_test_Some in Hfind as [Hk _]. apply lookup_lt_Some in Hk.
  cbn [fst snd]. split_and!; try done.
  exists (with_stop_mode_id 2 (with_status_code "END" t)).
  split; [done|].
  split; [unfold list_of_tests; simpl; by rewrite list_lookup_insert_eq|].
  by repeat split.
Qed.

Lemma getTestAcquiredDataAndResults_after_duration_witness :
  (p_device_id (params_of data_1) ≠ deviceId (config (s_run 1000000000)) ∧
   find_test (Some 1) (list_of_tests (s_run 1000000000))
   = Some (1%nat, T1_run 1000000000) ∧
   test_duration_seconds (config (s_run 1000000000)) = 60 ∧
   fst (jsonrpc_handler (1000000000 + 10000) 75 data_1 (s_run 1000000000))
   = Result (IdInt 21)
       (JObj [("status", JStr "OK");
              ("list_of_channel_acquired_data",
               JList [JObj [("stage_name", JStr "S");
                            ("sub_stage_index", JInt 1);
                            ("channel_type", JStr "Analog");
                            ("channel_index", JInt 1);
                            ("list_of_data_points", JList [])]]);
              ("stop_mode_id", JInt 2)]) ∧
   ∃ t', list_of_tests
           (snd (jsonrpc_handler (1000000000 + 10000) 75 data_1
                   (s_run 1000000000)))
         = [T0; t'] ∧
         test_status_code t' = "END" ∧
         stop_mode_id t' = Some 2 ∧
         list_of_channel_acquired_data t'
         = list_of_channel_acquired_data (T1_run 1000000000)) ∧
  (list_of_channel_acquired_data (T1_null 1000000000) = Null ∧
   fst (jsonrpc_handler (1000000000 + 10000) 75 data_1 (s_null 1000000000))
   = Result (IdInt 21)
       (JObj [("status", JStr "OK");
              ("list_of_channel_acquired_data", JNull);
              ("stop_mode_id", JInt 2)])).
Proof.
  assert (find_test (p_test_number (params_of data_1))
            (list_of_tests (s_run 1000000000))
          = Some (1%nat, T1_run 1000000000)) as Hf by reflexivity.
  assert (find_test (p_test_number (params_of data_1))
            (list_of_tests (s_null 1000000000))
          = Some (1%nat, T1_null 1000000000)) as Hf' by reflexivity.
  split.
  - destruct (getTestAcquiredDataAndResults_after_duration 1000000000 75
                data_1 (s_run 1000000000) 1 (T1_run 1000000000)
                eq_refl eq_refl Hf eq_refl eq_refl eq_refl)
      as (Hr & _ & (t' & Hl & _ & Hst & Hsm & Hch & _) & _).
    split; [by intros ?|]. split; [exact Hf|]. split; [reflexivity|].
    split; [exact Hr|]. exists t'.
    split; [exact Hl|]. split; [exact Hst|]. split; [exact Hsm | exact Hch].
  - split; [reflexivity|].
    exact (proj1 (getTestAcquiredDataAndResults_after_duration 1000000000 75
                    data_1 (s_null 1000000000) 1 (T1_null 1000000000)
                    eq_refl eq_refl Hf' eq_refl eq_refl eq_refl)).
Defined.

(** C7 as the specification words it does not hold: the response of
    [getTestAcquiredDataAndResults] for the running test 1, received at
    [T = 1000000000] and queried at [T + 10000] with duration 60, has the
    three keys [status], [list_of_channel_acquired_data] and
    [stop_mode_id]; no key of it reports END. *)
Lemma getTestAcquiredDataAndResults_reports_no_status_code :
  test_duration_seconds (config (s_run 1000000000)) = 60 ∧
  list_of_tests (s_run 1000000000) !! 1%nat = Some (T1_run 1000000000) ∧
  test_status_code (T1_run 1000000000) = "RUN" ∧
  fst (jsonrpc_handler (1000000000 + 10000) 75 data_1 (s_run 1000000000))
  = Result (IdInt 21)
      (JObj [("status", JStr "OK");
             ("list_of_channel_acquired_data",
              JList [JObj [("stage_name", JStr "S");
                           ("sub_stage_index", JInt 1);
                           ("channel_type", JStr "Analog");
                           ("channel_index", JInt 1);
                           ("list_of_data_points", JList [])]]);
             ("stop_mode_id", JInt 2)]) ∧
  result_field "test_status_code"
    (fst (jsonrpc_handler (1000000000 + 10000) 75 data_1 (s_run 1000000000)))
  = None ∧
  result_field "statusCode"
    (fst (jsonrpc_handler (1000000000 + 10000) 75 data_1 (s_run 1000000000)))
  = None ∧
  result_field "status"
    (fst (jsonrpc_handler (1000000000 + 10000) 75 data_1 (s_run 1000000000)))
  ≠ Some (JStr "END").
Proof. split_and!; try reflexivity; by intros ?. Qed.

(** ** One call, as a step of the lifecycle *)

Lemma auto_complete_moves now d t : moves now d t (auto_complete now d t).
Proof.
  unfold auto_complete. repeat case_decide; try apply Stays. by apply Ends.
Qed.

Lemma find_test_last n l src :
  find_test n l = Some src → ∃ last_t, last l = Some last_t.
Proof.
  destruct src as [k t]. intros [Hk _]%find_test_Some.
  destruct l as [|u l]; [done|].
  destruct (last (u :: l)) as [last_t|] eqn:Hlast; [by eexists|].
  by apply last_None in Hlast.
Qed.

Ltac branch m H := destruct (decide (method _ = m)) as [H | H].

(** Membership of a literal in a literal list. *)
Ltac listed H := rewrite H; repeat (first [by left | right]).

(** A call either leaves the state as it is, or it carries the right
    secret and
    - is one of the four updating methods: the first stored test with the
      requested number makes one move of the lifecycle, and the file is
      rewritten (or not); or
    - is a clone: the source exists, the last test is not in RUN, and the
      new test is appended and saved. *)
Lemma jsonrpc_handler_step now maxNewton req s :
  let l := list_of_tests s in
  let n := p_test_number (params_of req) in
  let s' := snd (jsonrpc_handler now maxNewton req s) in
  s' = s ∨
  (p_api_key (params_of req) = Some (API_KEY s) ∧
   ((∃ k t t',
       method req ∈ updating ∧
       find_test n l = Some (k, t) ∧
       moves now (test_duration_seconds (config s)) t t' ∧
       (s' = save (set_tests (<[k := t']> l) s) ∨
        s' = set_tests (<[k := t']> l) s)) ∨
    (∃ src last_t,
       method req = "cloneAndStartTest" ∧
       find_test n l = Some src ∧
       last l = Some last_t ∧
       test_status_code last_t ≠ "RUN" ∧
       s' = save (set_tests
                    (l ++ [new_test now maxNewton (Z.of_nat (length l))
                             (params_of req)]) s)))).
Proof.
  intros l n s'. subst l n s'. unfold jsonrpc_handler.
  branch "getRevision" H; [by left|].
  branch "sqrt" H0.
  { left. sqrt_cases; done. }
  destruct (decide (p_api_key (params_of req) ≠ Some (API_KEY s)))
    as [Hkey | Hkey]; [by left|].
  apply dec_stable in Hkey.
  branch "getListOfAllMachines" H1; [by left|].
  branch "getMachineIdentity" H2.
  { left. unfold getMachineIdentity. by case_decide. }
  branch "getMachineStatus" H3.
  { left. unfold getMachineStatus. by case_decide. }
  branch "getListOfAllTests" H4.
  { left. unfold getListOfAllTests. by case_decide. }
  branch "getListOfAllTestsBySpecimenCode" H5.
  { left. unfold getListOfAllTestsBySpecimenCode. case_decide; [done|].
    simpl. by destruct (filter _ _). }
  branch "getTestInfoAndStatus" H6.
  { unfold getTestInfoAndStatus. case_decide; [by left|].
    destruct (find_test _ _) as [[k t]|] eqn:Hf; [|by left].
    right. split; [done|]. left. eexists k, t, _.
    split; [listed H6|]. split; [done|].
    split; [apply auto_complete_moves|]. by left. }
  branch "getCustomer" H7; [by left|].
  branch "getListOfAllCustomers" H8; [by left|].
  branch "getTestAcquisitionSettings" H9.
  { left. unfold getTestAcquisitionSettings. case_decide; [done|].
    by destruct (find_test _ _) as [[k t]|]. }
  branch "getTestAcquiredDataAndResults" H10.
  { unfold getTestAcquiredDataAndResults.
    destruct (find_test _ _) as [[k t]|] eqn:Hf; [|by left].
    right. split; [done|]. left. eexists k, t, _.
    split; [listed H10|]. split; [done|].
    split; [apply auto_complete_moves|]. by left. }
  branch "cloneAndStartTest" H11.
  { unfold cloneAndStartTest. case_decide; [by left|].
    destruct (find_test _ _) as [src|] eqn:Hf; [|by left].
    rewrite last_index.
    destruct (find_test_last _ _ _ Hf) as [last_t Hlast]. rewrite Hlast.
    case_decide; [by left|].
    right. split; [done|]. right. by eexists src, last_t. }
  branch "continueTest" H12.
  { unfold continueTest. case_decide; [by left|].
    destruct (find_test _ _) as [[k t]|] eqn:Hf; [|by left].
    case_decide as Hp; [by left|].
    right. split; [done|]. left. eexists k, t, _.
    split; [listed H12|]. split; [done|].
    split; [by apply Resumes|]. by left. }
  branch "stopTest" H13; [|by left].
  unfold stopTest. case_decide; [by left|].
  destruct (find_test _ _) as [[k t]|] eqn:Hf; [|by left].
  case_decide as Hr; [by left|].
  case_decide as Hel.
  - right. split; [done|]. left. eexists k, t, _.
    split; [listed H13|]. split; [done|].
    split; [by apply Ends|]. by right.
  - right. split; [done|]. left. eexists k, t, _.
    split; [listed H13|]. split; [done|].
    split; [apply Pauses; [done | lia]|]. by left.
Qed.

(** The registry after one call. *)
Lemma jsonrpc_handler_tests now maxNewton req s :
  let l := list_of_tests s in
  let l' := list_of_tests (snd (jsonrpc_handler now maxNewton req s)) in
  l' = l ∨
  (∃ k t t',
     find_test (p_test_number (params_of req)) l = Some (k, t) ∧
     moves now (test_duration_seconds (config s)) t t' ∧
     l' = <[k := t']> l) ∨
  (∃ last_t,
     last l = Some last_t ∧ test_status_code last_t ≠ "RUN" ∧
     l' = l ++ [new_test now maxNewton (Z.of_nat (length l)) (params_of req)]).
Proof.
  intros l l'. subst l l'.
  destruct (jsonrpc_handler_step now maxNewton req s)
    as [-> | (_ & [(k & t & t' & _ & Hf & Hm & [-> | ->])
                  | (src & last_t & _ & _ & Hl & Hs & ->)])].
  - by left.
  - right; left. by exists k, t, t'.
  - right; left. by exists k, t, t'.
  - right; right. by exists last_t.
Qed.

Lemma moves_same_record now d t t' : moves now d t t' → same_record t t'.
Proof. intros [u | u _ _ | u _ _ | u _]; by repeat split. Qed.

Lemma moves_status now d t t' :
  moves now d t t' →
  t' = t ∨ lifecycle_status (test_status_code t').
Proof.
  intros [u | u _ _ | u _ _ | u _]; [by left | right..];
    unfold lifecycle_status; simpl; auto.
Qed.

(** A move leaves a test that is not in RUN or PAUSE as it is. *)
Lemma moves_from now d t t' :
  moves now d t t' →
  t' = t ∨ test_status_code t = "RUN" ∨ test_status_code t = "PAUSE".
Proof. intros [u | u ? _ | u ? _ | u ?]; auto. Qed.

Lemma moves_stop_mode now d t t' :
  moves now d t t' →
  stop_mode_id t' = stop_mode_id t ∨
  (stop_mode_id t' = Some 2 ∧ test_status_code t' = "END").
Proof. intros [u | u _ _ | u _ _ | u _]; simpl; auto. Qed.

(** ** Invariants of the registry over any sequence of calls *)

Lemma run_cons c cs s : run (c :: cs) s = run cs (step s c).
Proof. reflexivity. Qed.

Lemma step_tests c s :
  let l := list_of_tests s in
  let l' := list_of_tests (step s c) in
  l' = l ∨
  (∃ now d k t t',
     find_test (p_test_number (params_of c.2)) l = Some (k, t) ∧
     moves now d t t' ∧ l' = <[k := t']> l) ∨
  (∃ last_t u,
     last l = Some last_t ∧ test_status_code last_t ≠ "RUN" ∧
     test_number u = Z.of_nat (length l) ∧
     test_status_code u = "RUN" ∧
     l' = l ++ [u]).
Proof.
  destruct c as [[now maxNewton] req]. simpl.
  destruct (jsonrpc_handler_tests now maxNewton req s)
    as [H | [(k & t & t' & Hf & Hm & H) | (last_t & Hl & Hs & H)]].
  - by left.
  - right; left. by eexists now, _, k, t, t'.
  - right; right.
    by exists last_t,
      (new_test now maxNewton (Z.of_nat (length (list_of_tests s)))
         (params_of req)).
Qed.

Lemma dense_step c s :
  dense (list_of_tests s) → dense (list_of_tests (step s c)).
Proof.
  intros Hd.
  destruct (step_tests c s)
    as [-> | [(now & d & k & t & t' & Hf & Hm & ->)
             | (last_t & u & _ & _ & Hn & _ & ->)]]; [done | |].
  - apply find_test_Some in Hf as [Hk _].
    intros j v Hj. destruct (decide (k = j)) as [<- | Hne].
    + rewrite list_lookup_insert_eq in Hj by (by eapply lookup_lt_Some).
      injection Hj as <-.
      destruct (moves_same_record _ _ _ _ Hm) as [-> _]. by apply Hd.
    + rewrite list_lookup_insert_ne in Hj by done. by apply Hd.
  - intros j v Hj. apply lookup_app_Some in Hj as [Hj | [Hge Hj]].
    + by apply Hd.
    + apply list_lookup_singleton_Some in Hj as [Hz <-].
      rewrite Hn. lia.
Qed.

(** X1.  If the test numbers are the positions in the registry (the test
    at position [k] has number [k]), they still are after any sequence of
    calls: a clone numbers the new test with the size of the registry, and
    no branch assigns to [test_number]. *)
Theorem dense_numbering_kept (cs : list call) s :
  dense (list_of_tests s) → dense (list_of_tests (run cs s)).
Proof.
  revert s. induction cs as [|c cs IH]; intros s Hd; [done|].
  rewrite run_cons. by apply IH, dense_step.
Qed.

Lemma dense_sample : dense [T0; T1].
Proof.
  intros k t Hk. destruct k as [|[|k]]; simpl in Hk; [| |done];
    by injection Hk as <-.
Qed.

Lemma dense_numbering_kept_witness :
  dense (list_of_tests s0) ∧
  length (list_of_tests (run session s0)) = 3%nat ∧
  dense (list_of_tests (run session s0)).
Proof.
  split; [exact dense_sample|]. split; [vm_compute; reflexivity|].
  exact (dense_numbering_kept session s0 dense_sample).
Defined.

(** What a stored test may have become after some calls. *)
Lemma kept_refl t :
  same_record t t ∧
  (stop_mode_id t = stop_mode_id t ∨
   stop_mode_id t = Some 2 ∧ test_status_code t = "END").
Proof. by repeat split; try left. Qed.

Lemma kept_step c s k t :
  list_of_tests s !! k = Some t →
  ∃ t', list_of_tests (step s c) !! k = Some t' ∧
        ∃ now d, moves now d t t'.
Proof.
  intros Hk.
  destruct (step_tests c s)
    as [-> | [(now & d & j & u & u' & Hf & Hm & ->)
             | (last_t & u & _ & _ & _ & _ & ->)]].
  - exists t. split; [done|]. exists 0, 0. apply Stays.
  - apply find_test_Some in Hf as [Hj _].
    destruct (decide (j = k)) as [-> | Hne].
    + assert (u = t) as -> by congruence.
      exists u'. split; [|by eauto].
      apply list_lookup_insert_eq. by eapply lookup_lt_Some.
    + exists t. rewrite list_lookup_insert_ne by done.
      split; [done|]. exists 0, 0. apply Stays.
  - exists t. split; [by apply lookup_app_l_Some|]. exists 0, 0. apply Stays.
Qed.

Lemma run_keeps_ended (cs : list call) s k t :
  list_of_tests s !! k = Some t →
  test_status_code t = "END" →
  list_of_tests (run cs s) !! k = Some t.
Proof.
  revert s. induction cs as [|[[now maxNewton] req] cs IH]; intros s Hk Hend.
  - done.
  - rewrite run_cons. apply IH; [|done].
    eapply effect_keeps_ended; [|done..]. apply jsonrpc_handler_effect.
Qed.

(** X2.  A stored test is never removed, moved or renumbered, and its
    descriptive keys and acquired data are never rewritten: after any
    sequence of calls the same position holds a test with the same
    [test_number], [status], [test_description], [specimen_code],
    [specimen_description], [customer_id] and
    [list_of_channel_acquired_data]; its [stop_mode_id] is as before, or is
    2 with the test in END. *)
Theorem stored_test_kept (cs : list call) s k t :
  list_of_tests s !! k = Some t →
  ∃ t', list_of_tests (run cs s) !! k = Some t' ∧
        same_record t t' ∧
        (stop_mode_id t' = stop_mode_id t ∨
         stop_mode_id t' = Some 2 ∧ test_status_code t' = "END").
Proof.
  revert s t. induction cs as [|c cs IH]; intros s t Hk.
  - exists t. split; [done|]. apply kept_refl.
  - rewrite run_cons.
    destruct (kept_step c s k t Hk) as (t1 & Hk1 & now & d & Hm).
    destruct (IH _ _ Hk1) as (t' & Hk' & Hsame & Hstop).
    exists t'. split; [done|].
    pose proof (moves_same_record _ _ _ _ Hm) as Hsame1.
    split.
    + unfold same_record in *.
      destruct Hsame as (-> & -> & -> & -> & -> & -> & ->).
      by destruct Hsame1 as (-> & -> & -> & -> & -> & -> & ->).
    + destruct Hstop as [-> | Hend]; [|by right].
      destruct (moves_stop_mode _ _ _ _ Hm) as [-> | [H2 Hst]]; [by left|].
      right. split; [done|].
      pose proof (run_keeps_ended cs _ k t1 Hk1 Hst) as Hk2. congruence.
Qed.

Lemma stored_test_kept_witness :
  list_of_tests (s_run 1000000000) !! 1%nat = Some (T1_run 1000000000) ∧
  ∃ t', list_of_tests (run session (s_run 1000000000)) !! 1%nat = Some t' ∧
        same_record (T1_run 1000000000) t' ∧
        (stop_mode_id t' = stop_mode_id (T1_run 1000000000) ∨
         stop_mode_id t' = Some 2 ∧ test_status_code t' = "END").
Proof.
  split; [reflexivity|].
  exact (stored_test_kept session (s_run 1000000000) 1
           (T1_run 1000000000) eq_refl).
Defined.

Lemma status_step c s :
  Forall (λ t, lifecycle_status (test_status_code t)) (list_of_tests s) →
  Forall (λ t, lifecycle_status (test_status_code t))
    (list_of_tests (step s c)).
Proof.
  intros Hall.
  destruct (step_tests c s)
    as [-> | [(now & d & j & u & u' & Hf & Hm & ->)
             | (last_t & u & _ & _ & _ & Hrun & ->)]]; [done | |].
  - apply find_test_Some in Hf as [Hj _].
    apply Forall_insert; [done|].
    destruct (moves_status _ _ _ _ Hm) as [-> | H]; [|done].
    exact (Forall_lookup_1 _ _ _ _ Hall Hj).
  - apply Forall_app. split; [done|].
    apply Forall_singleton. rewrite Hrun. by left.
Qed.

(** X3.  If every stored status is one of RUN, PAUSE and END, it is so
    after any sequence of calls: the branches write no other status. *)
Theorem lifecycle_status_kept (cs : list call) s :
  Forall (λ t, lifecycle_status (test_status_code t)) (list_of_tests s) →
  Forall (λ t, lifecycle_status (test_status_code t))
    (list_of_tests (run cs s)).
Proof.
  revert s. induction cs as [|c cs IH]; intros s Hall; [done|].
  rewrite run_cons. by apply IH, status_step.
Qed.

Lemma lifecycle_status_kept_witness :
  Forall (λ t, lifecycle_status (test_status_code t)) (list_of_tests s0) ∧
  length (list_of_tests (run session s0)) = 3%nat ∧
  Forall (λ t, lifecycle_status (test_status_code t))
    (list_of_tests (run session s0)).
Proof.
  assert (Forall (λ t, lifecycle_status (test_status_code t))
            (list_of_tests s0)) as H.
  { apply Forall_cons. split; [by right; right|].
    apply Forall_cons. split; [by right; left|]. apply Forall_nil_2. }
  split; [exact H|]. split; [vm_compute; reflexivity|].
  exact (lifecycle_status_kept session s0 H).
Defined.

(** X4.  An empty registry cannot be started over the interface: with no
    stored test every lookup fails, the clone branch included (it needs a
    source), so no sequence of calls changes the state, memory or file. *)
Theorem empty_registry_stays (cs : list call) s :
  list_of_tests s = [] → run cs s = s.
Proof.
  intros Hnil. induction cs as [|[[now maxNewton] req] cs IH]; [done|].
  rewrite run_cons. unfold step.
  destruct (jsonrpc_handler_step now maxNewton req s)
    as [-> | (_ & [(k & t & t' & _ & Hf & _) | (src & last_t & _ & Hf & _)])];
    [done | |]; by rewrite Hnil in Hf.
Qed.

Lemma empty_registry_stays_witness :
  list_of_tests s_empty = [] ∧
  run session s_empty = s_empty ∧
  is_error (fst (jsonrpc_handler 2000000000 75 clone_0 s_empty)) = true.
Proof.
  split; [reflexivity|].
  split; [exact (empty_registry_stays session s_empty eq_refl)|].
  reflexivity.
Defined.

Lemma find_test_first n l k t :
  find_test n l = Some (k, t) →
  ∀ j u, l !! j = Some u → (j < k)%nat → Some (test_number u) ≠ n.
Proof.
  unfold find_test. intros H. apply list_find_Some in H as (_ & _ & H).
  exact H.
Qed.

Lemma shadowed_step c s i j u t :
  (i < j)%nat →
  list_of_tests s !! i = Some u →
  list_of_tests s !! j = Some t →
  test_number u = test_number t →
  list_of_tests (step s c) !! j = Some t.
Proof.
  intros Hlt Hi Hj Hn.
  destruct (step_tests c s)
    as [-> | [(now & d & k & v & v' & Hf & Hm & ->)
             | (last_t & w & _ & _ & _ & _ & ->)]]; [done | |].
  - destruct (decide (k = j)) as [-> | Hne].
    + pose proof (find_test_first _ _ _ _ Hf i u Hi Hlt) as Hfirst.
      apply find_test_Some in Hf as [Hk Hnum].
      assert (v = t) as -> by congruence.
      destruct Hfirst. by rewrite Hn.
    + by rewrite list_lookup_insert_ne.
  - by apply lookup_app_l_Some.
Qed.

(** X5.  The lookup stops at the first test with the requested number.  A
    stored test whose number is also that of a test at an earlier position
    is out of reach of the updating methods: no sequence of calls changes
    it, whatever its status. *)
Theorem shadowed_test_never_changes (cs : list call) s i j u t :
  (i < j)%nat →
  list_of_tests s !! i = Some u →
  list_of_tests s !! j = Some t →
  test_number u = test_number t →
  list_of_tests (run cs s) !! j = Some t.
Proof.
  intros Hlt. revert s u.
  induction cs as [|c cs IH]; intros s u Hi Hj Hn; [done|].
  rewrite run_cons.
  destruct (kept_step c s i u Hi) as (u1 & Hi1 & now & d & Hm).
  apply (IH _ u1); [done | by eapply shadowed_step |].
  destruct (moves_same_record _ _ _ _ Hm) as [-> _]. done.
Qed.

Lemma shadowed_test_never_changes_witness :
  (1 < 2)%nat ∧
  list_of_tests s_twice !! 1%nat = Some T1 ∧
  list_of_tests s_twice !! 2%nat = Some T1_again ∧
  test_number T1 = test_number T1_again ∧
  test_status_code <$> list_of_tests (run session_on_1 s_twice) !! 1%nat
  = Some "END" ∧
  list_of_tests (run session_on_1 s_twice) !! 2%nat = Some T1_again.
Proof.
  assert (1 < 2)%nat as Hlt by lia.
  split; [exact Hlt|]. split; [reflexivity|]. split; [reflexivity|].
  split; [reflexivity|]. split; [vm_compute; reflexivity|].
  exact (shadowed_test_never_changes session_on_1 s_twice 1 2 T1 T1_again
           Hlt eq_refl eq_refl eq_refl).
Defined.

(** ** The answers of the dispatcher *)

Ltac answers_result Hrev :=
  left; eexists; split; [reflexivity|]; right; split; [exact Hrev | reflexivity].

Ltac answers_error :=
  right; eexists _, _; split; [reflexivity|]; split; [reflexivity|];
  split; [by left|]; left; reflexivity.

Ltac answers_fault H0 :=
  right; eexists _, _; split; [reflexivity|]; split; [reflexivity|];
  split; [right; right; right; split; [reflexivity|]; split; [exact H0|]
         | left; reflexivity].

(** The envelope of every answer: a result (the revision string, or an
    object with [status] OK), or an error with one of four codes (-401
    for a wrong secret only, -32601 for an unknown method only, -32000 for
    a fault of [sqrt] only) that leaves the state as it was, the refusal of
    a late [stopTest] apart. *)
Lemma jsonrpc_handler_answer now maxNewton req s :
  let r := fst (jsonrpc_handler now maxNewton req s) in
  let s' := snd (jsonrpc_handler now maxNewton req s) in
  (∃ j, r = Result (id req) j ∧
        ((method req = "getRevision" ∧ j = JStr "0.3") ∨
         (method req ≠ "getRevision" ∧ get "status" j = Some (JStr "OK")))) ∨
  (∃ e c, r = Error (id req) e ∧
          get "code" e = Some (JInt c) ∧
          (c = -1 ∨
           (c = -401 ∧ p_api_key (params_of req) ≠ Some (API_KEY s)) ∨
           (c = -32601 ∧ method req ∉ known_methods) ∨
           (c = -32000 ∧ method req = "sqrt" ∧
            sqrt_raises (p_x (params_of req)) = true)) ∧
          (s' = s ∨
           (method req = "stopTest" ∧
            get "status" e = Some (JStr "TEST NOT STOPPABLE")))).
Proof.
  intros r s'. subst r s'. unfold jsonrpc_handler.
  branch "getRevision" Hrev.
  { left. eexists. split; [reflexivity|]. by left. }
  branch "sqrt" H0.
  { unfold sqrt, sqrt_raises. cbn zeta.
    destruct (p_x _) as [[| b | z | x | str | l | o]|].
    - answers_error.
    - answers_result Hrev.
    - destruct (z <? 0); [answers_error|].
      destruct (float_of_int z); [answers_result Hrev | answers_fault H0].
      reflexivity.
    - destruct (x <? 0)%float; [answers_error | answers_result Hrev].
    - answers_fault H0. reflexivity.
    - answers_fault H0. reflexivity.
    - answers_fault H0. reflexivity.
    - answers_error. }
  destruct (decide (p_api_key (params_of req) ≠ Some (API_KEY s)))
    as [Hkey | Hkey].
  { right. eexists _, _. split; [reflexivity|]. split; [reflexivity|].
    split; [by right; left|]. by left. }
  branch "getListOfAllMachines" H1; [answers_result Hrev|].
  branch "getMachineIdentity" H2.
  { unfold getMachineIdentity.
    case_decide; [answers_error | answers_result Hrev]. }
  branch "getMachineStatus" H3.
  { unfold getMachineStatus.
    case_decide; [answers_error | answers_result Hrev]. }
  branch "getListOfAllTests" H4.
  { unfold getListOfAllTests.
    case_decide; [answers_error | answers_result Hrev]. }
  branch "getListOfAllTestsBySpecimenCode" H5.
  { unfold getListOfAllTestsBySpecimenCode. case_decide; [answers_error|].
    cbn zeta. destruct (filter _ _); [answers_error | answers_result Hrev]. }
  branch "getTestInfoAndStatus" H6.
  { unfold getTestInfoAndStatus. case_decide; [answers_error|].
    destruct (find_test _ _) as [[k t]|];
      [answers_result Hrev | answers_error]. }
  branch "getCustomer" H7; [answers_result Hrev|].
  branch "getListOfAllCustomers" H8; [answers_result Hrev|].
  branch "getTestAcquisitionSettings" H9.
  { unfold getTestAcquisitionSettings. case_decide; [answers_error|].
    destruct (find_test _ _) as [[k t]|];
      [answers_result Hrev | answers_error]. }
  branch "getTestAcquiredDataAndResults" H10.
  { unfold getTestAcquiredDataAndResults.
    destruct (find_test _ _) as [[k t]|];
      [answers_result Hrev | answers_error]. }
  branch "cloneAndStartTest" H11.
  { unfold cloneAndStartTest. case_decide; [answers_error|].
    destruct (find_test _ _) as [src|] eqn:Hf; [|answers_error].
    rewrite last_index.
    destruct (find_test_last _ _ _ Hf) as [last_t ->].
    case_decide; [answers_error | answers_result Hrev]. }
  branch "continueTest" H12.
  { unfold continueTest. case_decide; [answers_error|].
    destruct (find_test _ _) as [[k t]|]; [|answers_error].
    case_decide; [answers_error | answers_result Hrev]. }
  branch "stopTest" H13.
  2: { right. eexists _, _. split; [reflexivity|]. split; [reflexivity|].
       split; [|by left]. right; right; left. split; [done|].
       unfold known_methods.
       repeat (apply not_elem_of_cons; split; [assumption|]).
       apply not_elem_of_nil. }
  unfold stopTest. case_decide; [answers_error|].
  destruct (find_test _ _) as [[k t]|]; [|answers_error].
  case_decide; [answers_error|].
  case_decide; [|answers_result Hrev].
  right. eexists _, _. split; [reflexivity|]. split; [reflexivity|].
  split; [by left|]. by right.
Qed.

(** X6.  Every answer carries the [id] of its request; a result is the
    revision string for [getRevision] and, for every other method, an
    object whose [status] is OK. *)
Theorem answer_envelope now maxNewton req s :
  let r := fst (jsonrpc_handler now maxNewton req s) in
  response_id r = id req ∧
  (method req ≠ "getRevision" →
   ∀ i j, r = Result i j → get "status" j = Some (JStr "OK")) ∧
  (method req = "getRevision" → r = Result (id req) (JStr "0.3")).
Proof.
  intros r. subst r. split_and!.
  - by destruct (jsonrpc_handler_answer now maxNewton req s)
      as [(j & -> & _) | (e & c & -> & _)].
  - intros Hrev i j Hr.
    destruct (jsonrpc_handler_answer now maxNewton req s)
      as [(j' & Hj & [[Hrev' _] | [_ Hok]]) | (e & c & He & _)].
    + done.
    + rewrite Hj in Hr. by injection Hr as _ <-.
    + rewrite He in Hr. done.
  - intros Hrev. unfold jsonrpc_handler. by rewrite decide_True.
Qed.

(** X7.  The code of an error answer is -1, -401, -32601 or -32000; -401
    is given for a wrong secret only and -32601 for an unknown method only.
    -32000, the answer of the enclosing [except], is given by [sqrt] only,
    and exactly when its [x] is a string, a list, an object or an integer
    that is not negative and too large for binary64 (the faults of [x < 0]
    and of [math.sqrt]); the state is then unchanged.  The one subscript of
    the handler, [list_of_tests[new_test_number - 1]], never raises: it is
    evaluated after a successful lookup, on a registry that is not empty. *)
Theorem error_codes now maxNewton req s :
  (∀ i e,
     fst (jsonrpc_handler now maxNewton req s) = Error i e →
     ∃ c, get "code" e = Some (JInt c) ∧
          (c = -1 ∨
           (c = -401 ∧ p_api_key (params_of req) ≠ Some (API_KEY s)) ∨
           (c = -32601 ∧ method req ∉ known_methods) ∨
           (c = -32000 ∧ method req = "sqrt" ∧
            sqrt_raises (p_x (params_of req)) = true))) ∧
  (method req = "sqrt" →
   sqrt_raises (p_x (params_of req)) = true →
   error_code (fst (jsonrpc_handler now maxNewton req s))
   = Some (JInt (-32000)) ∧
   snd (jsonrpc_handler now maxNewton req s) = s).
Proof.
  split.
  - intros i e Hr.
    destruct (jsonrpc_handler_answer now maxNewton req s)
      as [(j & Hj & _) | (e' & c & He & Hc & Hcs & _)].
    + rewrite Hj in Hr. done.
    + rewrite He in Hr. injection Hr as _ <-. by exists c.
  - intros Hm Hx. unfold jsonrpc_handler. rewrite Hm.
    rewrite decide_False by done. rewrite decide_True by done.
    revert Hx. unfold sqrt, sqrt_raises. cbn zeta.
    destruct (p_x _) as [[| b | z | x | str | l | o]|]; try done.
    destruct (z <? 0); [done|]. by destruct (float_of_int z).
Qed.

Lemma error_codes_witness :
  sqrt_raises (p_x (params_of sqrt_abc)) = true ∧
  sqrt_raises (p_x (params_of sqrt_huge)) = true ∧
  sqrt_raises (p_x (params_of sqrt_9)) = false ∧
  jsonrpc_handler 0 75 sqrt_abc s0
  = (Error (IdInt 3)
       (JObj [("code", JInt (-32000));
              ("message",
               JStr "'<' not supported between instances of 'str' and 'int'")]),
     s0) ∧
  error_code (fst (jsonrpc_handler 0 75 sqrt_huge s0)) = Some (JInt (-32000)) ∧
  fst (jsonrpc_handler 0 75 sqrt_9 s0)
  = Result (IdInt 2) (JObj [("status", JStr "OK"); ("y", JFloat 3)]).
Proof.
  assert (sqrt_raises (p_x (params_of sqrt_huge)) = true) as Hhuge
    by (vm_compute; reflexivity).
  split; [reflexivity|]. split; [exact Hhuge|].
  split; [vm_compute; reflexivity|]. split; [reflexivity|].
  split; [|vm_compute; reflexivity].
  exact (proj1 (proj2 (error_codes 0 75 sqrt_huge s0) eq_refl Hhuge)).
Defined.

(** X8.  A call answered with an error has changed nothing, neither the
    registry nor the file, with one exception: the [stopTest] refused with
    "TEST NOT STOPPABLE". *)
Theorem error_leaves_state now maxNewton req s i e :
  fst (jsonrpc_handler now maxNewton req s) = Error i e →
  snd (jsonrpc_handler now maxNewton req s) = s ∨
  (method req = "stopTest" ∧
   get "status" e = Some (JStr "TEST NOT STOPPABLE")).
Proof.
  intros Hr.
  destruct (jsonrpc_handler_answer now maxNewton req s)
    as [(j & Hj & _) | (e' & c & He & _ & _ & Hs)].
  - rewrite Hj in Hr. done.
  - rewrite He in Hr. injection Hr as _ <-. exact Hs.
Qed.

Lemma error_leaves_state_witness :
  fst (jsonrpc_handler 3000000000 75 continue_0 s0)
  = Error (IdInt 41)
      (JObj [("code", JInt (-1)); ("status", JStr "TEST NOT IN PAUSE")]) ∧
  snd (jsonrpc_handler 3000000000 75 continue_0 s0) = s0.
Proof.
  split; [reflexivity|].
  destruct (error_leaves_state 3000000000 75 continue_0 s0 _ _ eq_refl)
    as [H | [H _]]; [exact H | discriminate H].
Defined.

(** ** The guards, method by method *)

(** Into the branch of the method named by [H], past the secret. *)
Ltac enter H :=
  unfold jsonrpc_handler; rewrite H;
  repeat (rewrite decide_False by done);
  rewrite decide_False by (by intros ?);
  repeat (rewrite decide_False by done);
  rewrite decide_True by done.

(** X9.  Each of the nine device-scoped methods, called with the right
    secret and a [device_id] other than the configured one (or none),
    answers the error of code -1 naming the supplied id, before any lookup,
    and changes nothing. *)
Theorem device_guard now maxNewton req s :
  method req ∈ device_scoped →
  p_api_key (params_of req) = Some (API_KEY s) →
  p_device_id (params_of req) ≠ deviceId (config s) →
  jsonrpc_handler now maxNewton req s
  = (Error (id req)
       (JObj [("code", JInt (-1));
              ("message",
               JStr ("Device ID " +:+
                     str_opt_string (p_device_id (params_of req)) +:+
                     " not found"))]),
     s).
Proof.
  intros Hm Hkey Hdev. unfold device_scoped in Hm.
  repeat (apply elem_of_cons in Hm as [Hm | Hm]);
    [..| by apply elem_of_nil in Hm]; enter Hm.
  - unfold getMachineIdentity. by rewrite decide_True.
  - unfold getMachineStatus. by rewrite decide_True.
  - unfold getListOfAllTests. by rewrite decide_True.
  - unfold getListOfAllTestsBySpecimenCode. by rewrite decide_True.
  - unfold getTestInfoAndStatus. by rewrite decide_True.
  - unfold getTestAcquisitionSettings. by rewrite decide_True.
  - unfold cloneAndStartTest. by rewrite decide_True.
  - unfold continueTest. by rewrite decide_True.
  - unfold stopTest. by rewrite decide_True.
Qed.

Lemma device_guard_witness :
  method stop_1_wrong_device ∈ device_scoped ∧
  p_device_id (params_of stop_1_wrong_device)
  ≠ deviceId (config (s_run 4000000000)) ∧
  jsonrpc_handler 4000000010 75 stop_1_wrong_device (s_run 4000000000)
  = (Error (IdInt 13)
       (JObj [("code", JInt (-1));
              ("message", JStr "Device ID NOPE not found")]),
     s_run 4000000000).
Proof.
  assert (method stop_1_wrong_device ∈ device_scoped) as Hm.
  { unfold device_scoped. repeat (first [by left | right]). }
  assert (p_device_id (params_of stop_1_wrong_device)
          ≠ deviceId (config (s_run 4000000000))) as Hd by (by intros ?).
  split; [exact Hm|]. split; [exact Hd|].
  exact (device_guard 4000000010 75 stop_1_wrong_device (s_run 4000000000)
           Hm eq_refl Hd).
Defined.

(** X10.  A method name that is none of the fifteen of the dispatcher,
    called with the right secret, is answered with the error of code
    -32601 whose message carries the name; nothing changes. *)
Theorem unknown_method now maxNewton req s :
  method req ∉ known_methods →
  p_api_key (params_of req) = Some (API_KEY s) →
  jsonrpc_handler now maxNewton req s
  = (Error (id req)
       (JObj [("code", JInt (-32601));
              ("message",
               JStr ("Method " +:+ method req +:+ " not implemented"))]),
     s).
Proof.
  intros Hm Hkey. unfold known_methods in Hm.
  repeat (apply not_elem_of_cons in Hm as [? Hm]).
  unfold jsonrpc_handler.
  repeat (rewrite decide_False by done).
  rewrite decide_False by (by intros ?).
  repeat (rewrite decide_False by done).
  done.
Qed.

Lemma unknown_method_witness :
  (method delete_test_1 ∉ known_methods) ∧
  jsonrpc_handler 0 75 delete_test_1 s0
  = (Error (IdInt 99)
       (JObj [("code", JInt (-32601));
              ("message", JStr "Method deleteTest not implemented")]),
     s0).
Proof.
  assert (method delete_test_1 ∉ known_methods) as Hm.
  { unfold known_methods.
    repeat (apply not_elem_of_cons; split; [by intros ?|]).
    apply not_elem_of_nil. }
  split; [exact Hm|].
  exact (unknown_method 0 75 delete_test_1 s0 Hm eq_refl).
Defined.

(** X11.  Each of the five methods that address a stored test (the clone
    apart), called past its guards with a [test_number] that no stored test
    carries, among them an absent [test_number] and any number on an empty
    registry, answers the not-found error of code -1 and changes nothing. *)
Theorem unknown_test_number now maxNewton req s :
  method req ∈ addressing →
  p_api_key (params_of req) = Some (API_KEY s) →
  (method req ≠ "getTestAcquiredDataAndResults" →
   p_device_id (params_of req) = deviceId (config s)) →
  (∀ t, t ∈ list_of_tests s →
        Some (test_number t) ≠ p_test_number (params_of req)) →
  jsonrpc_handler now maxNewton req s
  = (Error (id req)
       (JObj [("code", JInt (-1));
              ("message",
               JStr ("Test number " +:+
                     str_opt_int (p_test_number (params_of req)) +:+
                     " not found"))]),
     s).
Proof.
  intros Hm Hkey Hdev Hnone.
  assert (find_test (p_test_number (params_of req)) (list_of_tests s) = None)
    as Hf.
  { unfold find_test. apply list_find_None, Forall_forall. exact Hnone. }
  assert (p_device_id (params_of req) = deviceId (config s) ∨
          method req = "getTestAcquiredDataAndResults") as Hd.
  { destruct (decide (method req = "getTestAcquiredDataAndResults")); auto. }
  clear Hdev. unfold addressing in Hm.
  repeat (apply elem_of_cons in Hm as [Hm | Hm]);
    [..| by apply elem_of_nil in Hm]; enter Hm.
  - unfold getTestInfoAndStatus.
    destruct Hd as [Hd | Hd]; [|by rewrite Hm in Hd].
    rewrite decide_False by (by intros ?). by rewrite Hf.
  - unfold getTestAcquisitionSettings.
    destruct Hd as [Hd | Hd]; [|by rewrite Hm in Hd].
    rewrite decide_False by (by intros ?). by rewrite Hf.
  - unfold getTestAcquiredDataAndResults. by rewrite Hf.
  - unfold continueTest. destruct Hd as [Hd | Hd]; [|by rewrite Hm in Hd].
    rewrite decide_False by (by intros ?). by rewrite Hf.
  - unfold stopTest. destruct Hd as [Hd | Hd]; [|by rewrite Hm in Hd].
    rewrite decide_False by (by intros ?). by rewrite Hf.
Qed.

Lemma unknown_test_number_witness :
  method continue_no_number ∈ addressing ∧
  p_test_number (params_of continue_no_number) = None ∧
  jsonrpc_handler 0 75 continue_no_number s0
  = (Error (IdInt 42)
       (JObj [("code", JInt (-1));
              ("message", JStr "Test number None not found")]),
     s0) ∧
  jsonrpc_handler 0 75 stop_1 s_empty
  = (Error (IdInt 50)
       (JObj [("code", JInt (-1));
              ("message", JStr "Test number 1 not found")]),
     s_empty).
Proof.
  assert (method continue_no_number ∈ addressing) as Hm.
  { unfold addressing. repeat (first [by left | right]). }
  assert (method stop_1 ∈ addressing) as Hm'.
  { unfold addressing. repeat (first [by left | right]). }
  split; [exact Hm|]. split; [reflexivity|]. split.
  - apply (unknown_test_number 0 75 continue_no_number s0 Hm eq_refl);
      [reflexivity|]. by apply find_test_None.
  - apply (unknown_test_number 0 75 stop_1 s_empty Hm' eq_refl);
      [reflexivity|]. by apply find_test_None.
Defined.

(** X13.  A call that changes the state, in memory or on file, carries the
    right secret, is one of [getTestInfoAndStatus],
    [getTestAcquiredDataAndResults], [continueTest], [stopTest] and
    [cloneAndStartTest], and names a stored test.  The other ten methods
    and the unknown ones never write. *)
Theorem writing_calls now maxNewton req s :
  snd (jsonrpc_handler now maxNewton req s) ≠ s →
  p_api_key (params_of req) = Some (API_KEY s) ∧
  (method req ∈ updating ∨ method req = "cloneAndStartTest") ∧
  is_Some (find_test (p_test_number (params_of req)) (list_of_tests s)).
Proof.
  intros Hne.
  destruct (jsonrpc_handler_step now maxNewton req s)
    as [Heq | (Hkey & [(k & t & t' & Hm & Hf & _)
                      | (src & last_t & Hm & Hf & _)])].
  - done.
  - split; [done|]. split; [by left | by eexists].
  - split; [done|]. split; [by right | by eexists].
Qed.

Lemma writing_calls_witness :
  snd (jsonrpc_handler 3000000000 75 continue_1 s0) ≠ s0 ∧
  p_api_key (params_of continue_1) = Some (API_KEY s0) ∧
  (method continue_1 ∈ updating ∨ method continue_1 = "cloneAndStartTest") ∧
  is_Some (find_test (p_test_number (params_of continue_1))
             (list_of_tests s0)).
Proof.
  assert (snd (jsonrpc_handler 3000000000 75 continue_1 s0) ≠ s0) as Hne.
  { intros Heq.
    apply (f_equal (λ s, test_status_code <$> list_of_tests s !! 1%nat))
      in Heq. discriminate Heq. }
  split; [exact Hne|].
  exact (writing_calls 3000000000 75 continue_1 s0 Hne).
Defined.

(** X14.  [check_api_key] lets through ([None]) exactly the calls the
    handler's own comparison lets through; what it refuses it answers with
    code -1 and the request id, where the handler answers -401. *)
Theorem check_api_key_agrees now maxNewton req s :
  method req ≠ "getRevision" →
  method req ≠ "sqrt" →
  (check_api_key (params_of req) (id req) s = None ↔
   error_code (fst (jsonrpc_handler now maxNewton req s))
   ≠ Some (JInt (-401))) ∧
  (∀ r, check_api_key (params_of req) (id req) s = Some r →
        response_id r = id req ∧
        error_code r = Some (JInt (-1)) ∧
        error_code (fst (jsonrpc_handler now maxNewton req s))
        = Some (JInt (-401))).
Proof.
  intros Hrev Hsqrt. unfold check_api_key.
  destruct (decide (p_api_key (params_of req) ≠ Some (API_KEY s)))
    as [Hkey | Hkey].
  - rewrite dispatch_unauthorised by done. split.
    + split; [done|]. intros H. by destruct H.
    + by intros r [= <-].
  - apply dec_stable in Hkey. split; [|done]. split; [|done].
    intros _ Hcode.
    destruct (jsonrpc_handler_answer now maxNewton req s)
      as [(j & Hj & _) | (e & c & He & Hc & Hcs & _)].
    + by rewrite Hj in Hcode.
    + rewrite He in Hcode. simpl in Hcode.
      rewrite Hc in Hcode. injection Hcode as ->.
      destruct Hcs as [? | [[_ ?] | [[? _] | [? _]]]]; done.
Qed.

Lemma check_api_key_agrees_witness :
  check_api_key (params_of stop_1) (id stop_1) s0 = None ∧
  check_api_key (params_of stop_1_wrong_key) (id stop_1_wrong_key) s0
  = Some (Error (IdInt 10)
            (JObj [("code", JInt (-1));
                   ("message", JStr "Wrong api_key");
                   ("data",
                    JObj [("class", JStr "Error");
                          ("jsonAdapterVersion", JStr "0.1");
                          ("cadmoVersion", JStr "Cadmo v3.2123");
                          ("stacks", JStr "")])])) ∧
  error_code (fst (jsonrpc_handler 0 75 stop_1_wrong_key s0))
  = Some (JInt (-401)).
Proof.
  assert (method stop_1_wrong_key ≠ "getRevision") as H1 by (by intros ?).
  assert (method stop_1_wrong_key ≠ "sqrt") as H2 by (by intros ?).
  split; [reflexivity|]. split; [reflexivity|].
  exact (proj2 (proj2 (proj2 (check_api_key_agrees 0 75 stop_1_wrong_key s0
                                H1 H2) _ eq_refl))).
Defined.

(** ** How the calls compose *)

(** While the last test is in RUN, a clone fails, whatever else holds. *)
Lemma clone_refused now maxNewton req s last_t :
  method req = "cloneAndStartTest" →
  last (list_of_tests s) = Some last_t →
  test_status_code last_t = "RUN" →
  is_error (fst (jsonrpc_handler now maxNewton req s)) = true ∧
  snd (jsonrpc_handler now maxNewton req s) = s.
Proof.
  intros Hm Hlast Hrun.
  destruct (decide (p_api_key (params_of req) = Some (API_KEY s)))
    as [Hkey | Hkey].
  - rewrite dispatch_cloneAndStartTest by done.
    unfold cloneAndStartTest. case_decide; [done|].
    destruct (find_test _ _) as [src|]; [|done].
    rewrite last_index, Hlast. by rewrite decide_True.
  - rewrite dispatch_unauthorised; [done | | | done]; rewrite Hm; by intros ?.
Qed.

(** A clone that is answered with a result has appended its test. *)
Lemma clone_succeeded now maxNewton req s :
  method req = "cloneAndStartTest" →
  is_error (fst (jsonrpc_handler now maxNewton req s)) = false →
  p_api_key (params_of req) = Some (API_KEY s) ∧
  jsonrpc_handler now maxNewton req s
  = (Result (id req)
       (JObj [("status", JStr "OK");
              ("new_test_number", JInt (Z.of_nat (length (list_of_tests s))))]),
     save (set_tests
             (list_of_tests s ++
              [new_test now maxNewton (Z.of_nat (length (list_of_tests s)))
                 (params_of req)]) s)).
Proof.
  intros Hm Hok.
  destruct (decide (p_api_key (params_of req) = Some (API_KEY s)))
    as [Hkey | Hkey].
  2: { rewrite dispatch_unauthorised in Hok; [done | | | done];
         rewrite Hm; by intros ?. }
  split; [done|].
  rewrite dispatch_cloneAndStartTest in Hok |- * by done.
  unfold cloneAndStartTest in *.
  case_decide; [done|].
  destruct (find_test _ _) as [src|]; [|done].
  destruct (list_of_tests s !! _) as [last_t|]; [|done].
  by case_decide.
Qed.

(** X15.  The source test of a clone is only checked to exist: two clones
    that differ in the source they name, both stored, and agree on the
    descriptive parameters, give the same answer and the same state.
    Nothing of the source test reaches the new one. *)
Theorem clone_ignores_source now maxNewton req1 req2 s :
  method req1 = "cloneAndStartTest" →
  method req2 = "cloneAndStartTest" →
  id req1 = id req2 →
  p_api_key (params_of req1) = Some (API_KEY s) →
  p_api_key (params_of req2) = Some (API_KEY s) →
  p_device_id (params_of req1) = deviceId (config s) →
  p_device_id (params_of req2) = deviceId (config s) →
  p_test_description (params_of req1) = p_test_description (params_of req2) →
  p_specimen_code (params_of req1) = p_specimen_code (params_of req2) →
  p_specimen_description (params_of req1)
  = p_specimen_description (params_of req2) →
  p_customer_id (params_of req1) = p_customer_id (params_of req2) →
  is_Some (find_test (p_test_number (params_of req1)) (list_of_tests s)) →
  is_Some (find_test (p_test_number (params_of req2)) (list_of_tests s)) →
  jsonrpc_handler now maxNewton req1 s = jsonrpc_handler now maxNewton req2 s.
Proof.
  intros Hm1 Hm2 Hid Hk1 Hk2 Hd1 Hd2 Hdesc Hcode Hsd Hcust [src1 Hf1] [src2 Hf2].
  rewrite !dispatch_cloneAndStartTest by done.
  destruct (find_test_last _ _ _ Hf1) as [last_t Hlast].
  rewrite (cloneAndStartTest_found _ _ _ _ _ src1 last_t) by done.
  rewrite (cloneAndStartTest_found _ _ _ _ _ src2 last_t) by done.
  unfold new_test. by rewrite Hid, Hdesc, Hcode, Hsd, Hcust.
Qed.

(** X16.  The guard of the clone reads the stored status, not the clock:
    after a successful clone every further clone fails and changes
    nothing, at any later time, also long after the duration of the new
    test has passed, as long as no other call has been made. *)
Theorem clone_blocks_clone now1 now2 m1 m2 req1 req2 s :
  method req1 = "cloneAndStartTest" →
  method req2 = "cloneAndStartTest" →
  is_error (fst (jsonrpc_handler now1 m1 req1 s)) = false →
  let s1 := snd (jsonrpc_handler now1 m1 req1 s) in
  is_error (fst (jsonrpc_handler now2 m2 req2 s1)) = true ∧
  snd (jsonrpc_handler now2 m2 req2 s1) = s1.
Proof.
  intros Hm1 Hm2 Hok s1. subst s1.
  destruct (clone_succeeded _ _ _ _ Hm1 Hok) as [_ ->]. cbn [snd].
  eapply clone_refused;
    [done | unfold list_of_tests; simpl; apply last_snoc | reflexivity].
Qed.

Lemma clone_ignores_source_witness :
  is_Some (find_test (p_test_number (params_of clone_0)) (list_of_tests s0)) ∧
  is_Some (find_test (p_test_number (params_of clone_1)) (list_of_tests s0)) ∧
  p_test_number (params_of clone_0) ≠ p_test_number (params_of clone_1) ∧
  jsonrpc_handler 2000000000 75 clone_0 s0
  = jsonrpc_handler 2000000000 75 clone_1 s0.
Proof.
  assert (is_Some (find_test (p_test_number (params_of clone_0))
                     (list_of_tests s0))) as H0 by (by eexists).
  assert (is_Some (find_test (p_test_number (params_of clone_1))
                     (list_of_tests s0))) as H1 by (by eexists).
  split; [exact H0|]. split; [exact H1|]. split; [by intros ?|].
  exact (clone_ignores_source 2000000000 75 clone_0 clone_1 s0
           eq_refl eq_refl eq_refl eq_refl eq_refl eq_refl eq_refl
           eq_refl eq_refl eq_refl eq_refl H0 H1).
Defined.

Lemma clone_blocks_clone_witness :
  is_error (fst (jsonrpc_handler 2000000000 75 clone_0 s0)) = false ∧
  3000000000 - 2000000000 >= test_duration_seconds (config s0) ∧
  is_error
    (fst (jsonrpc_handler 3000000000 75 clone_1
            (snd (jsonrpc_handler 2000000000 75 clone_0 s0)))) = true ∧
  snd (jsonrpc_handler 3000000000 75 clone_1
         (snd (jsonrpc_handler 2000000000 75 clone_0 s0)))
  = snd (jsonrpc_handler 2000000000 75 clone_0 s0).
Proof.
  assert (is_error (fst (jsonrpc_handler 2000000000 75 clone_0 s0)) = false)
    as Hok by (vm_compute; reflexivity).
  split; [exact Hok|]. split; [by intros ?|].
  exact (clone_blocks_clone 2000000000 3000000000 75 75 clone_0 clone_1 s0
           eq_refl eq_refl Hok).
Defined.

Lemma list_of_tests_save l s : list_of_tests (save (set_tests l s)) = l.
Proof. reflexivity. Qed.

Lemma duration_save l s :
  test_duration_seconds (config (save (set_tests l s)))
  = test_duration_seconds (config s).
Proof. reflexivity. Qed.

(** On a densely numbered registry the size is a fresh number: the lookup
    finds the appended test. *)
Lemma find_test_snoc l u :
  dense l →
  test_number u = Z.of_nat (length l) →
  find_test (Some (Z.of_nat (length l))) (l ++ [u]) = Some (length l, u).
Proof.
  intros Hd Hu. unfold find_test. apply list_find_Some. split_and!.
  - by rewrite lookup_app_r, Nat.sub_diag.
  - by rewrite Hu.
  - intros j v Hj Hlt. rewrite lookup_app_l in Hj by done.
    rewrite (Hd _ _ Hj). intros [= H]. lia.
Qed.

(** X17.  What a clone stores is read back.  On a densely numbered
    registry, after a successful clone at [now1], a [getTestInfoAndStatus]
    on the returned number at [now2] reports the descriptive parameters of
    the clone (or their defaults "Cloned Test", "001", "Cloned Specimen"
    and 1), the reception time [now1], and the status RUN while
    [now2 - now1] is below the duration, END from then on. *)
Theorem clone_then_info now1 now2 m1 m2 req1 req2 s :
  dense (list_of_tests s) →
  method req1 = "cloneAndStartTest" →
  is_error (fst (jsonrpc_handler now1 m1 req1 s)) = false →
  method req2 = "getTestInfoAndStatus" →
  p_api_key (params_of req2) = Some (API_KEY s) →
  p_device_id (params_of req2) = deviceId (config s) →
  p_test_number (params_of req2)
  = Some (Z.of_nat (length (list_of_tests s))) →
  fst (jsonrpc_handler now2 m2 req2 (snd (jsonrpc_handler now1 m1 req1 s)))
  = Result (id req2)
      (JObj [("status", JStr "OK");
             ("test_description",
              JStr (default "Cloned Test"
                      (p_test_description (params_of req1))));
             ("specimen_code",
              JStr (default "001" (p_specimen_code (params_of req1))));
             ("specimen_description",
              JStr (default "Cloned Specimen"
                      (p_specimen_description (params_of req1))));
             ("sample_reception_epoch_time", JInt now1);
             ("customer_id",
              JInt (default 1 (p_customer_id (params_of req1))));
             ("test_status_code",
              JStr (if decide (now2 - now1 >= test_duration_seconds (config s))
                    then "END" else "RUN"))]).
Proof.
  intros Hd Hm1 Hok Hm2 Hkey Hdev Hn.
  destruct (clone_succeeded _ _ _ _ Hm1 Hok) as [_ ->]. cbn [snd].
  rewrite dispatch_getTestInfoAndStatus by done.
  unfold getTestInfoAndStatus. rewrite decide_False by (by intros ?).
  rewrite Hn, !list_of_tests_save, duration_save.
  rewrite find_test_snoc by done.
  cbn [fst]. unfold auto_complete.
  rewrite decide_True by done. cbn [sample_reception_epoch_time new_test].
  by case_decide.
Qed.

Lemma clone_then_info_witness :
  dense (list_of_tests s0) ∧
  is_error (fst (jsonrpc_handler 2000000000 75 clone_suite s0)) = false ∧
  fst (jsonrpc_handler 2000000059 75 info_2
         (snd (jsonrpc_handler 2000000000 75 clone_suite s0)))
  = Result (IdInt 22)
      (JObj [("status", JStr "OK");
             ("test_description", JStr "Clone");
             ("specimen_code", JStr "999");
             ("specimen_description", JStr "Cloned");
             ("sample_reception_epoch_time", JInt 2000000000);
             ("customer_id", JInt 5);
             ("test_status_code", JStr "RUN")]) ∧
  result_field "test_status_code"
    (fst (jsonrpc_handler 2000000060 75 info_2
            (snd (jsonrpc_handler 2000000000 75 clone_suite s0))))
  = Some (JStr "END").
Proof.
  assert (is_error (fst (jsonrpc_handler 2000000000 75 clone_suite s0)) = false)
    as Hok by (vm_compute; reflexivity).
  split; [exact dense_sample|]. split; [exact Hok|]. split.
  - exact (clone_then_info 2000000000 2000000059 75 75 clone_suite info_2 s0
             dense_sample eq_refl Hok eq_refl eq_refl eq_refl eq_refl).
  - rewrite (clone_then_info 2000000000 2000000060 75 75 clone_suite info_2 s0
               dense_sample eq_refl Hok eq_refl eq_refl eq_refl eq_refl).
    reflexivity.
Defined.

Lemma dispatch_getListOfAllTests now maxNewton req s :
  p_api_key (params_of req) = Some (API_KEY s) →
  method req = "getListOfAllTests" →
  jsonrpc_handler now maxNewton req s
  = getListOfAllTests (id req) (params_of req) s.
Proof. intros Hkey Hm. enter Hm. done. Qed.

Lemma dispatch_getListOfAllTestsBySpecimenCode now maxNewton req s :
  p_api_key (params_of req) = Some (API_KEY s) →
  method req = "getListOfAllTestsBySpecimenCode" →
  jsonrpc_handler now maxNewton req s
  = getListOfAllTestsBySpecimenCode (id req) (params_of req) s.
Proof. intros Hkey Hm. enter Hm. done. Qed.

(** X18.  [getListOfAllTests] past its guards lists the stored numbers in
    the order of the registry and changes nothing; on a densely numbered
    registry of size [n] the list is [0, 1, ..., n - 1]. *)
Theorem getListOfAllTests_numbers now maxNewton req s :
  method req = "getListOfAllTests" →
  p_api_key (params_of req) = Some (API_KEY s) →
  p_device_id (params_of req) = deviceId (config s) →
  jsonrpc_handler now maxNewton req s
  = (Result (id req)
       (JObj [("status", JStr "OK");
              ("list_of_all_test_numbers",
               JList (JInt <$> (test_number <$> list_of_tests s)))]),
     s) ∧
  (dense (list_of_tests s) →
   test_number <$> list_of_tests s
   = Z.of_nat <$> seq 0 (length (list_of_tests s))).
Proof.
  intros Hm Hkey Hdev. split.
  - rewrite dispatch_getListOfAllTests by done.
    unfold getListOfAllTests. rewrite decide_False by (by intros ?).
    by rewrite <- list_fmap_compose.
  - intros Hd. apply list_eq. intros k. rewrite !list_lookup_fmap.
    destruct (list_of_tests s !! k) as [t|] eqn:Hk; simpl.
    + rewrite lookup_seq_lt by (by eapply lookup_lt_Some). simpl.
      f_equal. by apply Hd.
    + rewrite lookup_seq_ge; [done|]. by apply lookup_ge_None.
Qed.

Lemma getListOfAllTests_numbers_witness :
  dense (list_of_tests s0) ∧
  jsonrpc_handler 0 75 list_all
    (snd (jsonrpc_handler 2000000000 75 clone_0 s0))
  = (Result (IdInt 14)
       (JObj [("status", JStr "OK");
              ("list_of_all_test_numbers", JList [JInt 0; JInt 1; JInt 2])]),
     snd (jsonrpc_handler 2000000000 75 clone_0 s0)).
Proof.
  split; [exact dense_sample|].
  destruct (getListOfAllTests_numbers 0 75 list_all
              (snd (jsonrpc_handler 2000000000 75 clone_0 s0))
              eq_refl eq_refl eq_refl) as [-> _].
  reflexivity.
Defined.




(** X20.  The two read paths make the same change: a
    [getTestInfoAndStatus] past its guards and a
    [getTestAcquiredDataAndResults] with the right secret, on the same
    [test_number] and at the same clock reading, leave the same state
    (registry and file); they differ in the answer only. *)
Theorem read_paths_same_state now m1 m2 req1 req2 s :
  method req1 = "getTestInfoAndStatus" →
  method req2 = "getTestAcquiredDataAndResults" →
  p_api_key (params_of req1) = Some (API_KEY s) →
  p_api_key (params_of req2) = Some (API_KEY s) →
  p_device_id (params_of req1) = deviceId (config s) →
  p_test_number (params_of req2) = p_test_number (params_of req1) →
  snd (jsonrpc_handler now m1 req1 s) = snd (jsonrpc_handler now m2 req2 s).
Proof.
  intros Hm1 Hm2 Hk1 Hk2 Hd Hn.
  rewrite dispatch_getTestInfoAndStatus by done.
  rewrite dispatch_getTestAcquiredDataAndResults by done.
  unfold getTestInfoAndStatus, getTestAcquiredDataAndResults.
  rewrite decide_False by (by intros ?). rewrite Hn.
  by destruct (find_test _ _) as [[k t]|].
Qed.

Lemma read_paths_same_state_witness :
  snd (jsonrpc_handler 1000010000 75 info_1 (s_run 1000000000))
  = snd (jsonrpc_handler 1000010000 75 data_1 (s_run 1000000000)) ∧
  test_status_code <$>
    list_of_tests (snd (jsonrpc_handler 1000010000 75 data_1
                          (s_run 1000000000))) !! 1%nat
  = Some "END".
Proof.
  split; [|reflexivity].
  exact (read_paths_same_state 1000010000 75 75 info_1 data_1
           (s_run 1000000000) eq_refl eq_refl eq_refl eq_refl eq_refl eq_refl).
Defined.

(** X21.  Whenever one of the five writing methods answers with a result,
    the file holds the in-memory configuration on return, whatever it held
    before: the two read paths rewrite it even when no test changes, so a
    successful call repairs an earlier divergence of memory and file. *)
Theorem success_is_saved now maxNewton req s :
  method req ∈ updating ∨ method req = "cloneAndStartTest" →
  is_error (fst (jsonrpc_handler now maxNewton req s)) = false →
  config_json (snd (jsonrpc_handler now maxNewton req s))
  = config (snd (jsonrpc_handler now maxNewton req s)).
Proof.
  intros Hm Hok.
  assert (method req ≠ "getRevision" ∧ method req ≠ "sqrt") as [Hrev Hsqrt].
  { destruct Hm as [Hm | ->]; [|done]. unfold updating in Hm.
    repeat (apply elem_of_cons in Hm as [-> | Hm]); try done.
    by apply elem_of_nil in Hm. }
  destruct (decide (p_api_key (params_of req) = Some (API_KEY s)))
    as [Hkey | Hkey]; [|by rewrite dispatch_unauthorised in Hok].
  revert Hok. destruct Hm as [Hm | Hm].
  - unfold updating in Hm.
    repeat (apply elem_of_cons in Hm as [Hm | Hm]);
      [..| by apply elem_of_nil in Hm].
    + rewrite dispatch_getTestInfoAndStatus by done.
      unfold getTestInfoAndStatus. case_decide; [done|].
      by destruct (find_test _ _) as [[k t]|].
    + rewrite dispatch_getTestAcquiredDataAndResults by done.
      unfold getTestAcquiredDataAndResults.
      by destruct (find_test _ _) as [[k t]|].
    + rewrite dispatch_continueTest by done.
      unfold continueTest. case_decide; [done|].
      destruct (find_test _ _) as [[k t]|]; [|done]. by case_decide.
    + rewrite dispatch_stopTest by done.
      unfold stopTest. case_decide; [done|].
      destruct (find_test _ _) as [[k t]|]; [|done].
      case_decide; [done|]. by case_decide.
  - rewrite dispatch_cloneAndStartTest by done.
    unfold cloneAndStartTest. case_decide; [done|].
    destruct (find_test _ _) as [src|]; [|done].
    destruct (list_of_tests s !! _) as [last_t|]; [|done].
    by case_decide.
Qed.

Lemma success_is_saved_witness :
  tests (config_json s_unsaved) ≠ tests (config s_unsaved) ∧
  (method info_1 ∈ updating ∨ method info_1 = "cloneAndStartTest") ∧
  is_error (fst (jsonrpc_handler 5000010001 75 info_1 s_unsaved)) = false ∧
  config (snd (jsonrpc_handler 5000010001 75 info_1 s_unsaved))
  = config s_unsaved ∧
  config_json (snd (jsonrpc_handler 5000010001 75 info_1 s_unsaved))
  = config (snd (jsonrpc_handler 5000010001 75 info_1 s_unsaved)).
Proof.
  assert (method info_1 ∈ updating ∨ method info_1 = "cloneAndStartTest")
    as Hm by (left; by left).
  split; [discriminate|]. split; [exact Hm|].
  split; [reflexivity|]. split; [reflexivity|].
  exact (success_is_saved 5000010001 75 info_1 s_unsaved Hm eq_refl).
Defined.

(** X22.  [getListOfAllTestsBySpecimenCode] past its guards answers an
    error exactly when no stored test has the requested [specimen_code]
    (so always when the key is absent or the registry empty); otherwise it
    answers its placeholder result.  It never changes the state. *)
Theorem specimen_code_lookup now maxNewton req s :
  method req = "getListOfAllTestsBySpecimenCode" →
  p_api_key (params_of req) = Some (API_KEY s) →
  p_device_id (params_of req) = deviceId (config s) →
  let r := fst (jsonrpc_handler now maxNewton req s) in
  snd (jsonrpc_handler now maxNewton req s) = s ∧
  (error_code r = Some (JInt (-1)) ↔
   ∀ t, t ∈ list_of_tests s →
        Some (specimen_code t) ≠ p_specimen_code (params_of req)) ∧
  (r = Result (id req)
         (JObj [("status", JStr "OK");
                ("message", JStr "Method not implemented yet")]) ↔
   ∃ t, t ∈ list_of_tests s ∧
        Some (specimen_code t) = p_specimen_code (params_of req)).
Proof.
  intros Hm Hkey Hdev r. subst r.
  rewrite dispatch_getListOfAllTestsBySpecimenCode by done.
  unfold getListOfAllTestsBySpecimenCode.
  rewrite decide_False by (by intros ?). cbn zeta.
  destruct (filter _ _) as [|u l'] eqn:Hfil; cbn [fst snd].
  - split; [done|]. split.
    + split; [|done]. intros _ t Ht HP.
      exact (filter_nil_not_elem_of _ _ _ Hfil HP Ht).
    + split; [done|]. intros (t & Ht & HP).
      destruct (filter_nil_not_elem_of _ _ _ Hfil HP Ht).
  - assert (u ∈ list_of_tests s ∧
            Some (specimen_code u) = p_specimen_code (params_of req))
      as [Hu HP].
    { assert (u ∈ filter
                (λ t, Some (specimen_code t) = p_specimen_code (params_of req))
                (list_of_tests s)) as H by (rewrite Hfil; by left).
      apply list_elem_of_filter in H. tauto. }
    split; [done|]. split.
    + split; [done|]. intros Hnone. by destruct (Hnone u Hu).
    + split; [|done]. intros _. by exists u.
Qed.

Lemma specimen_code_lookup_witness :
  (T0 ∈ list_of_tests s0 ∧
   Some (specimen_code T0) = p_specimen_code (params_of by_code_001) ∧
   is_error (fst (jsonrpc_handler 0 75 by_code_001 s0)) = false) ∧
  (p_specimen_code (params_of by_code_none) = None ∧
   fst (jsonrpc_handler 0 75 by_code_none s0)
   = Error (IdInt 16)
       (JObj [("code", JInt (-1));
              ("message", JStr "No tests found for specimen code None")])).
Proof.
  split.
  - assert (T0 ∈ list_of_tests s0) as Hin by (by left).
    split; [exact Hin|]. split; [reflexivity|].
    destruct (specimen_code_lookup 0 75 by_code_001 s0
                eq_refl eq_refl eq_refl) as (_ & _ & Hres).
    rewrite (proj2 Hres); [reflexivity|]. by exists T0.
  - split; reflexivity.
Defined.

(** X23.  Whatever the peak, the waveform of a clone has 2000 samples and
    its time axis rises strictly from sample to sample. *)
Theorem sample_times_increase maxNewton :
  length (results_data maxNewton) = 2000%nat ∧
  ∀ k d d',
    results_data maxNewton !! k = Some d →
    results_data maxNewton !! S k = Some d' →
    (delta_t d <? delta_t d')%float = true.
Proof.
  rewrite results_data_map. split; [by rewrite length_fmap, length_seq|].
  intros k d d'. rewrite !list_lookup_fmap.
  destruct (seq 0 2000 !! k) as [j|] eqn:Hk; [|done].
  destruct (seq 0 2000 !! S k) as [j'|] eqn:Hk'; [|done].
  apply lookup_seq in Hk as [-> _]. apply lookup_seq in Hk' as [-> Hlt].
  intros [= <-] [= <-]. cbn [delta_t sample].
  assert (forallb
            (λ i : nat,
               (float_of_Z (5 * Z.of_nat i) / 100
                <? float_of_Z (5 * Z.of_nat (S i)) / 100)%float)
            (seq 0 1999) = true) as Hall by (vm_compute; reflexivity).
  rewrite forallb_forall in Hall. apply (Hall k).
  apply in_seq. lia.
Qed.
